(** * Batch API load test: the workflow driver, the shared-credential
    bootstrap and the run-end hook of [src/locust/locustfile.py]

    The Locust scripts are embedded as programs of a small state, exception
    and trace monad.  The remote API, the process environment, the fixture
    file and the random source are inputs of the model; the load engine
    itself (spawning, statistics) is outside of it. *)

From Stdlib Require Import ZArith QArith Qminmax Qpower Lqa.
From stdpp Require Import base option list gmap strings.

Open Scope string_scope.
Open Scope Z_scope.
Open Scope list_scope.

(** ** Python values

    What [response.json()] can return, and therefore what the workflow
    identifiers can hold.  [VNone] is Python's [None] (JSON [null]); numbers
    are rationals, which covers the integers and every finite float. *)

#[warnings="-register-all"]
Inductive value : Type :=
| VNone
| VBool (b : bool)
| VNum (q : Q)
| VStr (s : string)
| VList (l : list value)
| VDict (d : gmap string value).

(** [bool(v)], as used by [if not self.file_id]. *)
Definition truthy (v : value) : bool :=
  match v with
  | VNone => false
  | VBool b => b
  | VNum q => negb (Qeq_bool q 0)
  | VStr s => match s with EmptyString => false | String _ _ => true end
  | VList l => match l with [] => false | _ :: _ => true end
  | VDict d => negb (Nat.eqb (size d) 0)
  end.

(** [v == s] for a string literal [s]: only a string equals a string. *)
Definition eq_str (v : value) (s : string) : bool :=
  match v with
  | VStr s' => String.eqb s' s
  | _ => false
  end.

(** [v in [s1, ..., sn]] for a list of string literals. *)
Definition in_strs (v : value) (ss : list string) : bool :=
  existsb (eq_str v) ss.

(** [v is None]. *)
Definition is_None (v : value) : bool :=
  match v with VNone => true | _ => false end.

(** [v[:20]] succeeds on strings and lists only. *)
Definition sliceable (v : value) : bool :=
  match v with VStr _ | VList _ => true | _ => false end.

(** ** Floats and the engine's statistics

    The run-end hook only compares floats, so a float is a rational, an
    infinity or a NaN; comparison of finite floats (and of the integers the
    engine reports) is exact. *)

Inductive pyfloat : Type :=
| FNan
| FInf (negative : bool)
| FNum (q : Q).

(** [a > b] *)
Definition float_gt (a b : pyfloat) : bool :=
  match a, b with
  | FNan, _ | _, FNan => false
  | FInf true, _ => false
  | FInf false, FInf false => false
  | FInf false, _ => true
  | FNum _, FInf negative => negative
  | FNum x, FNum y => if Qlt_le_dec y x then true else false
  end.

(** One [StatsEntry] of the engine, as far as the hook reads it. *)
Record StatsEntry : Type := mkStatsEntry {
  num_requests : Z;
  num_failures : Z;
  fail_ratio : pyfloat;
  avg_response_time : pyfloat;
  get_response_time_percentile : Q -> pyfloat;
  total_rps : pyfloat
}.

Inductive violation : Type :=
| P95Exceeded (p95 threshold : pyfloat)
| ErrorRateExceeded (error_rate threshold : pyfloat).

(** ** HTTP responses, requests and the observable trace *)

Record Response : Type := mkResponse {
  status_code : Z;
  text : string;
  (** the result of [response.json()]; [None] when it raises
      [JSONDecodeError] *)
  json : option value;
  (** [response.headers], keyed by lower-case header name *)
  resp_headers : gmap string string
}.

Inductive method : Type := GET | POST.

Inductive url : Type :=
| UrlFiles                      (* "/ai/v1/files" *)
| UrlFile (id : value)          (* f"/ai/v1/files/{id}" *)
| UrlFileContent (id : value)   (* f"/ai/v1/files/{id}/content" *)
| UrlBatches                    (* "/ai/v1/batches" *)
| UrlBatch (id : value)         (* f"/ai/v1/batches/{id}" *)
| UrlPath (path : string).      (* a path taken from the environment *)

Inductive payload : Type :=
| NoPayload
| UploadForm (file : string)            (* files={'file': ...}, data={'purpose': 'batch'} *)
| BatchJson (input_file_id : value)     (* endpoint, 24h window and metadata are fixed *)
| ApiKeyJson.                           (* the fixed "load-test" key description *)

(** The texts handed to [response.failure] and [print], kept symbolic: one
    constructor per format string, carrying the interpolated data. *)
Inductive message : Type :=
| DebugUploading (len : nat) (head : string)
| DebugPostingTo (base_url : string)
| DebugUploadStatus (code : Z)
| DebugResponseHeaders (h : gmap string string)
| DebugResponseBody (body : string)
| DebugAllowedMethods (allow : string)
| NoFileId (body : string)
| UploadParseFailed (body : string)
| UploadFailed (code : Z) (body : string)
| MetadataFailed (code : Z)
| ContentFailed (code : Z)
| BatchParseFailed
| BatchCreationFailed (code : Z) (body : string)
| UnknownBatchStatus (status : value)
| PollParseFailed
| PollFailed (code : Z)
| DidNotComplete (batch_id : value) (max_polls : nat)
| OutputFailed (code : Z)
| ErrorsFailed (code : Z)
| DebugUsingSharedKey
| DebugCreatingKey (endpoint : string)
| DebugCreatedKey (key : value)
| ErrorNoApiKey (body : string)
| ErrorKeyParseFailed
| ErrorKeyCreationFailed (code : Z) (body : string)
| LoadTestComplete
| Summary (total : StatsEntry)
| MetricsExported
| ExportFailed
| AssertionFailuresBanner
| AssertionFailure (v : violation)
| AssertionFailuresEnd
| AllAssertionsPassed.

Inductive event : Type :=
| EvRequest (m : method) (u : url) (p : payload) (name : string)
| EvSuccess (name : string)                 (* response.success() *)
| EvFailure (name : string) (msg : message) (* response.failure(msg) *)
| EvSleep (seconds : Q)                     (* time.sleep(seconds) *)
| EvPrint (msg : message).

Definition is_request (e : event) : bool :=
  match e with EvRequest _ _ _ _ => true | _ => false end.

Definition is_failure (e : event) : bool :=
  match e with EvFailure _ _ => true | _ => false end.

(** Number of HTTP calls in a trace. *)
Definition requests_issued (t : list event) : nat := length (List.filter is_request t).

(** Number of recorded failures in a trace. *)
Definition failures_recorded (t : list event) : nat := length (List.filter is_failure t).

(** The sleeps of a trace, in order. *)
Fixpoint sleeps (t : list event) : list Q :=
  match t with
  | [] => []
  | EvSleep q :: t' => q :: sleeps t'
  | _ :: t' => sleeps t'
  end.

(** ** Program state *)

(** Instance attributes of [BatchWorkflow]. *)
Record BatchWorkflow : Type := mkBatchWorkflow {
  file_id : value;
  batch_id : value;
  output_file_id : value;
  error_file_id : value;
  test_data : string
}.

(** Authorization header values, symbolic like the messages. *)
Inductive header : Type :=
| Plain (s : string)
| Bearer (key : value).          (* f'Bearer {key}' *)

(** [self.client]: the user's HTTP session. *)
Record HttpSession : Type := mkHttpSession {
  base_url : string;
  auth : option (string * string);
  headers : gmap string header
}.

(** Everything a simulated user can read or write.  [shared_api_key] is the
    class attribute [BatchUser.shared_api_key], common to all users;
    [process_exit_code] is the exit status the engine will report;
    [served] counts the HTTP calls answered so far. *)
Record World : Type := mkWorld {
  self : BatchWorkflow;
  client : HttpSession;
  shared_api_key : value;
  process_exit_code : option Z;
  served : nat
}.

Inductive exn : Type :=
| InterruptTaskSet     (* raised by self.interrupt() *)
| AttributeError       (* .get on something that is not a dict *)
| TypeError            (* slicing something that is not subscriptable *)
| ValueError           (* float() of a malformed string *)
| OSError              (* open() of a directory or of a file one may not read *)
| UnicodeDecodeError.  (* read() of a file that is not valid text *)

Inductive outcome (A : Type) : Type :=
| Normal (a : A)
| Raised (e : exn).
Arguments Normal {A} a.
Arguments Raised {A} e.

(** ** The monad *)

Definition M (A : Type) : Type := World -> outcome A * World * list event.

Definition ret {A} (a : A) : M A := fun w => (Normal a, w, []).

Definition bind {A B} (m : M A) (k : A -> M B) : M B :=
  fun w =>
    match m w with
    | (Normal a, w1, t1) =>
        match k a w1 with
        | (r, w2, t2) => (r, w2, t1 ++ t2)
        end
    | (Raised e, w1, t1) => (Raised e, w1, t1)
    end.

Definition raise {A} (e : exn) : M A := fun w => (Raised e, w, []).

Definition emit (e : event) : M unit := fun w => (Normal tt, w, [e]).

Definition get_world : M World := fun w => (Normal w, w, []).

Definition put_world (w : World) : M unit := fun _ => (Normal tt, w, []).

Declare Scope prog_scope.
Delimit Scope prog_scope with prog.
Notation "x <- m ;; k" := (bind m (fun x => k))
  (at level 100, m at next level, right associativity) : prog_scope.
Notation "m ;; k" := (bind m (fun _ => k))
  (at level 100, right associativity) : prog_scope.
Open Scope prog_scope.

(** Projections of a run. *)
Definition result {R} (r : R * World * list event) : R := r.1.1.
Definition final {R} (r : R * World * list event) : World := r.1.2.
Definition trace {R} (r : R * World * list event) : list event := r.2.

(** *** Attribute access *)

Definition get_self : M BatchWorkflow := w <- get_world ;; ret (self w).

Definition set_self (s : BatchWorkflow) : M unit :=
  w <- get_world ;;
  put_world (mkWorld s (client w) (shared_api_key w) (process_exit_code w) (served w)).

Definition set_file_id (v : value) : M unit :=
  s <- get_self ;;
  set_self (mkBatchWorkflow v (batch_id s) (output_file_id s) (error_file_id s) (test_data s)).

Definition set_batch_id (v : value) : M unit :=
  s <- get_self ;;
  set_self (mkBatchWorkflow (file_id s) v (output_file_id s) (error_file_id s) (test_data s)).

Definition set_output_file_id (v : value) : M unit :=
  s <- get_self ;;
  set_self (mkBatchWorkflow (file_id s) (batch_id s) v (error_file_id s) (test_data s)).

Definition set_error_file_id (v : value) : M unit :=
  s <- get_self ;;
  set_self (mkBatchWorkflow (file_id s) (batch_id s) (output_file_id s) v (test_data s)).

Definition get_client : M HttpSession := w <- get_world ;; ret (client w).

Definition set_client (c : HttpSession) : M unit :=
  w <- get_world ;;
  put_world (mkWorld (self w) c (shared_api_key w) (process_exit_code w) (served w)).

Definition get_shared_api_key : M value := w <- get_world ;; ret (shared_api_key w).

Definition set_shared_api_key (v : value) : M unit :=
  w <- get_world ;;
  put_world (mkWorld (self w) (client w) v (process_exit_code w) (served w)).

(** *** Effects *)

Definition success (name : string) : M unit := emit (EvSuccess name).
Definition failure (name : string) (msg : message) : M unit := emit (EvFailure name msg).
Definition sleep (seconds : Q) : M unit := emit (EvSleep seconds).
Definition print (msg : message) : M unit := emit (EvPrint msg).

(** [self.interrupt()] raises; the [return] after it is never reached. *)
Definition interrupt {A} : M A := raise InterruptTaskSet.

(** [data.get(key)]: the entry or [None] on a dict, [AttributeError] on
    anything else. *)
Definition dict_get (data : value) (key : string) : M value :=
  match data with
  | VDict d => ret (default VNone (d !! key))
  | _ => raise AttributeError
  end.

(** ** [BatchWorkflow]

    [server k] is the response to the [k]-th HTTP call of the run: the
    remote API is an arbitrary function of the call number. *)

Section Workflow.

Variable server : nat -> Response.

(** [self.client.get], [self.client.post]: the request goes out, then the
    caller blocks until the server's answer is in. *)
Definition send (m : method) (u : url) (p : payload) (name : string) : M unit :=
  emit (EvRequest m u p name).

Definition receive : M Response :=
  fun w =>
    (Normal (server (served w)),
     mkWorld (self w) (client w) (shared_api_key w) (process_exit_code w) (S (served w)),
     []).

Definition http (m : method) (u : url) (p : payload) (name : string) : M Response :=
  send m u p name ;; receive.

(** [response.status_code in [200, 201]] *)
Definition created (response : Response) : bool :=
  (status_code response =? 200) || (status_code response =? 201).

(** [on_start]: every identifier starts as [None]; [data] is what
    [load_test_data] returned (the fixture file, or the built-in single
    request line when the file is missing). *)
Definition workflow_on_start (data : string) : M unit :=
  set_self (mkBatchWorkflow VNone VNone VNone VNone data).

(** Step 1: upload the JSONL batch input file.  [test_data] is held as its
    UTF-8 bytes. *)
Definition upload_file : M unit :=
  s <- get_self ;;
  let test_data_bytes := test_data s in
  print (DebugUploading (String.length test_data_bytes)
                        (String.substring 0 200 test_data_bytes)) ;;
  c <- get_client ;;
  print (DebugPostingTo (base_url c)) ;;
  let name := "/ai/v1/files [upload]" in
  response <- http POST UrlFiles (UploadForm test_data_bytes) name ;;
  print (DebugUploadStatus (status_code response)) ;;
  print (DebugResponseHeaders (resp_headers response)) ;;
  print (DebugResponseBody (String.substring 0 500 (text response))) ;;
  match resp_headers response !! "allow" with
  | Some allow => print (DebugAllowedMethods allow)
  | None => ret tt
  end ;;
  if created response then
    match json response with
    | Some response_data =>
        id <- dict_get response_data "id" ;;
        set_file_id id ;;
        if negb (truthy id) then failure name (NoFileId (text response))
        else success name
    | None => failure name (UploadParseFailed (text response))
    end
  else failure name (UploadFailed (status_code response) (text response)).

(** Step 2: verify the upload, by metadata or by content; [r] is the draw
    of [random.random()]. *)
Definition verify_upload (r : Q) : M unit :=
  s <- get_self ;;
  if negb (truthy (file_id s)) then interrupt
  else if Qlt_le_dec r (1 # 2) then
    let name := "/ai/v1/files/{file_id} [metadata]" in
    response <- http GET (UrlFile (file_id s)) NoPayload name ;;
    if status_code response =? 200 then success name
    else failure name (MetadataFailed (status_code response))
  else
    let name := "/ai/v1/files/{file_id}/content [verify]" in
    response <- http GET (UrlFileContent (file_id s)) NoPayload name ;;
    if status_code response =? 200 then success name
    else failure name (ContentFailed (status_code response)).

(** Step 3: create the batch job. *)
Definition create_batch : M unit :=
  s <- get_self ;;
  if negb (truthy (file_id s)) then interrupt
  else
    let name := "/ai/v1/batches [create]" in
    response <- http POST UrlBatches (BatchJson (file_id s)) name ;;
    if created response then
      match json response with
      | Some data =>
          id <- dict_get data "id" ;;
          set_batch_id id ;;
          success name
      | None => failure name BatchParseFailed
      end
    else failure name (BatchCreationFailed (status_code response) (text response)).

(** Step 4: poll the batch status. *)

Definition max_polls : nat := 60.

Definition terminal_statuses : list string :=
  ["completed"; "failed"; "cancelled"; "expired"].

Definition running_statuses : list string :=
  ["in_progress"; "validating"; "finalizing"].

(** How one pass through the body of the [for] loop ends: by falling
    through to the sleep, or by [return]. *)
Inductive flow : Type := Continue | Return.

(** The [with] block of the loop: one status request and its verdict. *)
Definition poll_once : M flow :=
  s <- get_self ;;
  let name := "/ai/v1/batches/{batch_id} [poll]" in
  response <- http GET (UrlBatch (batch_id s)) NoPayload name ;;
  if status_code response =? 200 then
    match json response with
    | Some data =>
        status <- dict_get data "status" ;;
        if in_strs status terminal_statuses then
          o <- dict_get data "output_file_id" ;;
          set_output_file_id o ;;
          e <- dict_get data "error_file_id" ;;
          set_error_file_id e ;;
          success name ;;
          ret Return
        else if in_strs status running_statuses then
          success name ;;
          ret Continue
        else
          failure name (UnknownBatchStatus status) ;;
          ret Return
    | None =>
        failure name PollParseFailed ;;
        ret Return
    end
  else
    failure name (PollFailed (status_code response)) ;;
    ret Return.

(** [poll_interval = min(poll_interval * 1.5, 30)] *)
Definition next_interval (poll_interval : Q) : Q :=
  Qmin (poll_interval * (3 # 2)) 30.

(** The [for] loop with [n] iterations left. *)
Fixpoint poll_loop (n : nat) (poll_interval : Q) : M flow :=
  match n with
  | O => ret Continue
  | S n' =>
      f <- poll_once ;;
      match f with
      | Return => ret Return
      | Continue =>
          sleep poll_interval ;;
          poll_loop n' (next_interval poll_interval)
      end
  end.

Definition poll_batch_status : M unit :=
  s <- get_self ;;
  if negb (truthy (batch_id s)) then interrupt
  else
    f <- poll_loop max_polls 2 ;;
    match f with
    | Return => ret tt
    | Continue =>
        s' <- get_self ;;
        print (DidNotComplete (batch_id s') max_polls)
    end.

(** Step 5: download the output file. *)
Definition retrieve_output : M unit :=
  s <- get_self ;;
  if negb (truthy (output_file_id s)) then ret tt
  else
    let name := "/ai/v1/files/{output_file_id}/content [output]" in
    response <- http GET (UrlFileContent (output_file_id s)) NoPayload name ;;
    if status_code response =? 200 then success name
    else failure name (OutputFailed (status_code response)).

(** Step 6: download the error file if there is one. *)
Definition retrieve_errors : M unit :=
  s <- get_self ;;
  if negb (truthy (error_file_id s)) then ret tt
  else
    let name := "/ai/v1/files/{error_file_id}/content [errors]" in
    response <- http GET (UrlFileContent (error_file_id s)) NoPayload name ;;
    if status_code response =? 200 then success name
    else failure name (ErrorsFailed (status_code response)).

End Workflow.

(** ** [BatchUser]: the shared-credential bootstrap *)

Section User.

Variable server : nat -> Response.

(** [os.environ] *)
Variable environ : gmap string string.

(** Whether slice objects are hashable (CPython 3.12 and later): it decides
    which exception [d[:20]] raises on a dict. *)
Variable hashable_slices : bool.

(** [os.getenv(name, default)] *)
Definition getenv (name default : string) : string :=
  match environ !! name with
  | Some v => v
  | None => default
  end.

(** [self.client.auth = a] *)
Definition set_auth (a : option (string * string)) : M unit :=
  c <- get_client ;;
  set_client (mkHttpSession (base_url c) a (headers c)).

(** [self.client.headers.update({name: h})] *)
Definition update_header (name : string) (h : header) : M unit :=
  c <- get_client ;;
  set_client (mkHttpSession (base_url c) (auth c) (<[name := h]> (headers c))).

(** [key[:20]] on a string or a list. *)
Definition slice20 (key : value) : value :=
  match key with
  | VStr s => VStr (String.substring 0 20 s)
  | VList l => VList (take 20 l)
  | _ => key
  end.

(** [_create_shared_api_key] from the point where the POST has returned:
    everything below [response = self.client.post(...)]. *)
Definition _create_shared_api_key_response (response : Response) : M unit :=
  if created response then
    match json response with
    | Some response_data =>
        key <- dict_get response_data "key" ;;
        set_shared_api_key key ;;
        k <- get_shared_api_key ;;
        if truthy k then
          if sliceable k then
            print (DebugCreatedKey (slice20 k)) ;;
            k' <- get_shared_api_key ;;
            update_header "Authorization" (Bearer k') ;;
            set_auth None
          else
            match k with
            | VDict _ =>
                if hashable_slices then print ErrorKeyParseFailed (* KeyError, caught *)
                else raise TypeError
            | _ => raise TypeError
            end
        else print (ErrorNoApiKey (text response))
    | None => print ErrorKeyParseFailed
    end
  else print (ErrorKeyCreationFailed (status_code response) (text response)).

Definition _create_shared_api_key : M unit :=
  let api_key_endpoint :=
    getenv "API_KEY_ENDPOINT" "/admin/api/v1/users/current/api-keys" in
  print (DebugCreatingKey api_key_endpoint) ;;
  response <- http server POST (UrlPath api_key_endpoint) ApiKeyJson
                "/admin/api-keys [create-shared]" ;;
  _create_shared_api_key_response response.

Definition on_start : M unit :=
  let username := getenv "BASIC_AUTH_USERNAME" "admin" in
  let password := getenv "BASIC_AUTH_PASSWORD" "password" in
  set_auth (Some (username, password)) ;;
  update_header "User-Agent" (Plain "Locust-LoadTest/1.0") ;;
  k <- get_shared_api_key ;;
  if is_None k then _create_shared_api_key
  else
    print DebugUsingSharedKey ;;
    k' <- get_shared_api_key ;;
    update_header "Authorization" (Bearer k') ;;
    set_auth None.

End User.

(** ** The run-end hook *)

(** [for x in l: body(x)] *)
Fixpoint for_each {A} (l : list A) (body : A -> M unit) : M unit :=
  match l with
  | [] => ret tt
  | x :: l' => body x ;; for_each l' body
  end.

Section Hook.

Variable environ : gmap string string.

(** Python's [float] on a string; [None] when it raises [ValueError]. *)
Variable float : string -> option pyfloat.

(** Whether the [try] block that builds and writes
    [/results/metrics.json] ran to its end; any exception inside it is
    caught by [except Exception]. *)
Variable exported : bool.

(** [float(os.getenv(name, default))] *)
Definition float_getenv (name default : string) : M pyfloat :=
  match float (getenv environ name default) with
  | Some x => ret x
  | None => raise ValueError
  end.

(** [on_test_stop(environment)], where [total] is
    [environment.stats.total]. *)
Definition on_test_stop (total : StatsEntry) : M unit :=
  print LoadTestComplete ;;
  print (Summary total) ;;
  (if exported then print MetricsExported else print ExportFailed) ;;
  p95_threshold_ms <- float_getenv "P95_THRESHOLD_MS" "1000" ;;
  error_rate_threshold <- float_getenv "ERROR_RATE_THRESHOLD" "0.01" ;;
  let failures : list violation := [] in
  let p95 := get_response_time_percentile total (95 # 100) in
  let failures :=
    if float_gt p95 p95_threshold_ms
    then failures ++ [P95Exceeded p95 p95_threshold_ms] else failures in
  let error_rate := fail_ratio total in
  let failures :=
    if float_gt error_rate error_rate_threshold
    then failures ++ [ErrorRateExceeded error_rate error_rate_threshold] else failures in
  match failures with
  | _ :: _ =>
      print AssertionFailuresBanner ;;
      for_each failures (fun failure => print (AssertionFailure failure)) ;;
      print AssertionFailuresEnd
      (* Note: Not exiting with error code to allow result collection *)
  | [] => print AllAssertionsPassed
  end.

End Hook.

(** ** Several users in one run

    *** Users that start one after another *)

Section Run.

Variable server : nat -> Response.
Variable environ : gmap string string.
Variable hashable_slices : bool.

(** The engine gives a user a session of its own and calls [on_start]; an
    exception ends that user only.  The class attribute and the server are
    shared with the users before and after. *)
Definition start_user (fresh : HttpSession) (w : World)
  : outcome unit * World * list event :=
  on_start server environ hashable_slices
    (mkWorld (self w) fresh (shared_api_key w) (process_exit_code w) (served w)).

(** [n] users whose [on_start] calls run one after another, none
    overlapping the next.  Each user is listed with how its [on_start] ended
    and the session it was left with. *)
Fixpoint start_users (n : nat) (fresh : HttpSession) (w : World)
  : list (outcome unit * HttpSession) * World * list event :=
  match n with
  | O => ([], w, [])
  | S n' =>
      let '(r, w1, t1) := start_user fresh w in
      let '(users, w2, t2) := start_users n' fresh w1 in
      ((r, client w1) :: users, w2, t1 ++ t2)
  end.

(** A user that has attached [key] as bearer credential and dropped basic
    auth. *)
Definition uses_bearer (key : value) (u : outcome unit * HttpSession) : Prop :=
  u.1 = Normal tt /\
  auth u.2 = None /\
  headers u.2 !! "Authorization" = Some (Bearer key).

(** *** Users that overlap

    The engine runs the users as cooperative threads: a user keeps control
    until it blocks, and the only place where [on_start] blocks is the POST
    of [_create_shared_api_key].  So [on_start] is two atomic pieces, and
    the pieces of different users can alternate. *)

(** [on_start] until it blocks in the POST ([true]) or ends ([false]). *)
Definition on_start_begin : M bool :=
  let username := getenv environ "BASIC_AUTH_USERNAME" "admin" in
  let password := getenv environ "BASIC_AUTH_PASSWORD" "password" in
  set_auth (Some (username, password)) ;;
  update_header "User-Agent" (Plain "Locust-LoadTest/1.0") ;;
  k <- get_shared_api_key ;;
  if is_None k then
    let api_key_endpoint :=
      getenv environ "API_KEY_ENDPOINT" "/admin/api/v1/users/current/api-keys" in
    print (DebugCreatingKey api_key_endpoint) ;;
    send POST (UrlPath api_key_endpoint) ApiKeyJson "/admin/api-keys [create-shared]" ;;
    ret true
  else
    print DebugUsingSharedKey ;;
    k' <- get_shared_api_key ;;
    update_header "Authorization" (Bearer k') ;;
    set_auth None ;;
    ret false.

(** [on_start] from the moment the answer to the POST is in. *)
Definition on_start_resume : M unit :=
  response <- receive server ;;
  _create_shared_api_key_response hashable_slices response.

Inductive phase : Type :=
| Idle                        (* on_start not called yet *)
| Posting                     (* blocked in the POST *)
| Ready (r : outcome unit).   (* on_start over *)

Record Pool : Type := mkPool {
  members : list (phase * HttpSession);
  class_key : value;            (* BatchUser.shared_api_key *)
  answers : nat                 (* HTTP calls answered so far *)
}.

Inductive action : Type :=
| Begin (u : nat)      (* user u is scheduled for the first time *)
| Deliver (u : nat).   (* the answer to user u's POST arrives *)

(** The world as member [c] of the pool sees it. *)
Definition as_member (p : Pool) (c : HttpSession) : World :=
  mkWorld (mkBatchWorkflow VNone VNone VNone VNone "") c (class_key p) None (answers p).

Definition act (a : action) (p : Pool) : Pool * list event :=
  match a with
  | Begin u =>
      match members p !! u with
      | Some (Idle, c) =>
          let '(r, w, t) := on_start_begin (as_member p c) in
          let ph :=
            match r with
            | Normal true => Posting
            | Normal false => Ready (Normal tt)
            | Raised e => Ready (Raised e)
            end in
          (mkPool (<[u := (ph, client w)]> (members p)) (shared_api_key w) (served w), t)
      | _ => (p, [])
      end
  | Deliver u =>
      match members p !! u with
      | Some (Posting, c) =>
          let '(r, w, t) := on_start_resume (as_member p c) in
          (mkPool (<[u := (Ready r, client w)]> (members p)) (shared_api_key w) (served w), t)
      | _ => (p, [])
      end
  end.

(** The [Authorization] header member [u] sends. *)
Definition authorization (p : Pool) (u : nat) : option header :=
  match members p !! u with
  | Some (_, c) => headers c !! "Authorization"
  | None => None
  end.

Fixpoint interleave (schedule : list action) (p : Pool) : Pool * list event :=
  match schedule with
  | [] => (p, [])
  | a :: schedule' =>
      let '(p1, t1) := act a p in
      let '(p2, t2) := interleave schedule' p1 in
      (p2, t1 ++ t2)
  end.

End Run.

(** ** Reading traces and responses *)

Definition is_success (e : event) : bool :=
  match e with EvSuccess _ => true | _ => false end.

Definition successes_recorded (t : list event) : nat := length (List.filter is_success t).

(** A step that ended with [response.success()] and no failure. *)
Definition marked_success (t : list event) : Prop :=
  successes_recorded t = 1%nat /\ failures_recorded t = 0%nat.

(** A step that ended with [response.failure(...)] and no success. *)
Definition marked_failed (t : list event) : Prop :=
  failures_recorded t = 1%nat /\ successes_recorded t = 0%nat.

(** The [status] a poll response reports: the entry of a JSON object
    received with HTTP 200 ([None] in Python when the key is missing). *)
Definition reported_status (response : Response) : option value :=
  if status_code response =? 200 then
    match json response with
    | Some (VDict d) => Some (default VNone (d !! "status"))
    | _ => None
    end
  else None.

Definition is_running (response : Response) : bool :=
  match reported_status response with
  | Some status => in_strs status running_statuses
  | None => false
  end.

(** The three ways a poll response stops the loop without being terminal. *)
Definition http_error (response : Response) : bool :=
  negb (status_code response =? 200).

Definition parse_failure (response : Response) : bool :=
  (status_code response =? 200) &&
  match json response with None => true | Some _ => false end.

Definition unknown_status (response : Response) : bool :=
  match reported_status response with
  | Some status =>
      negb (in_strs status terminal_statuses) && negb (in_strs status running_statuses)
  | None => false
  end.

(** The world after [k] more HTTP calls have been answered. *)
Definition answered (k : nat) (w : World) : World :=
  mkWorld (self w) (client w) (shared_api_key w) (process_exit_code w) (k + served w).

(** [self] with the two result identifiers replaced. *)
Definition with_results (o e : value) (w : World) : World :=
  mkWorld
    (mkBatchWorkflow (file_id (self w)) (batch_id (self w)) o e (test_data (self w)))
    (client w) (shared_api_key w) (process_exit_code w) (served w).

(** The poll interval in force at attempt [i]: the loop's update, [i] times. *)
Definition interval (i : nat) : Q := Nat.iter i next_interval 2%Q.

Definition poll_name : string := "/ai/v1/batches/{batch_id} [poll]".

(** The trace of [k] attempts in a row that found the batch still running,
    the first of them sleeping [start] seconds. *)
Fixpoint rounds (id : value) (k : nat) (start : Q) : list event :=
  match k with
  | O => []
  | S k' =>
      EvRequest GET (UrlBatch id) NoPayload poll_name
        :: EvSuccess poll_name
        :: EvSleep start
        :: rounds id k' (next_interval start)
  end.

(** Polling continues after attempt [i]: status request [i + 1] goes out. *)
Definition polling_continues (t : list event) (i : nat) : Prop :=
  (S i < requests_issued t)%nat.

(** ** Concrete inputs *)

Definition session0 : HttpSession := mkHttpSession "http://localhost:8089" None ∅.

(** A workflow right after its [on_start], before any step. *)
Definition world0 : World :=
  mkWorld (mkBatchWorkflow VNone VNone VNone VNone "") session0 VNone None 0.

(** A workflow that has uploaded its file. *)
Definition uploaded_world : World :=
  mkWorld (mkBatchWorkflow (VStr "file-abc") VNone VNone VNone "")
    session0 VNone None 0.

(** A workflow that has uploaded its file and created its batch. *)
Definition polling_world : World :=
  mkWorld (mkBatchWorkflow (VStr "file-abc") (VStr "batch-1") VNone VNone "")
    session0 VNone None 0.

Definition reply (code : Z) (body : option value) : Response :=
  mkResponse code "" body ∅.

Definition object (entries : list (string * value)) : value :=
  VDict (list_to_map entries).

Definition in_progress : Response :=
  reply 200 (Some (object [("status", VStr "in_progress")])).

Definition completed_entries : gmap string value :=
  list_to_map [("status", VStr "completed"); ("output_file_id", VStr "file-out-1")].

(** Two polls in progress, then completed with an output file. *)
Definition completes_at_third (k : nat) : Response :=
  if (k <? 2)%nat then in_progress else reply 200 (Some (VDict completed_entries)).

Definition always_in_progress (k : nat) : Response := in_progress.

Definition paused_entries : gmap string value :=
  list_to_map [("status", VStr "paused")].

(** One poll in progress, then a status the script does not know. *)
Definition pauses_at_second (k : nat) : Response :=
  if (k <? 1)%nat then in_progress else reply 200 (Some (VDict paused_entries)).

Definition always_unavailable (k : nat) : Response := reply 503 None.

Definition accepts_upload (k : nat) : Response :=
  reply 201 (Some (VDict {[ "id" := VStr "file-abc" ]})).

Definition always_fails (k : nat) : Response := reply 500 None.

(** A success response to create-batch whose object has no [id]. *)
Definition creates_without_id (k : nat) : Response := reply 200 (Some (VDict ∅)).

(** The [k]-th creation request gets a key of its own. *)
Definition issues_keys (k : nat) : Response :=
  reply 201 (Some (object
    [("key", VStr (if (k =? 0)%nat then "sk-first" else "sk-second"))])).

Definition idle_pool (n : nat) : Pool :=
  mkPool (replicate n (Idle, session0)) VNone 0.

(** Statistics of a run with a p95 of 1500 ms and 5% of failures. *)
Definition slow_total : StatsEntry :=
  mkStatsEntry 100 5 (FNum (5 # 100)) (FNum 700) (fun _ => FNum 1500) (FNum 10).

(** A [float] that knows the two default thresholds. *)
Definition float_of_default (s : string) : option pyfloat :=
  if String.eqb s "1000" then Some (FNum 1000)
  else if String.eqb s "0.01" then Some (FNum (1 # 100))
  else None.

(** ** The rest of the scripts *)

(** *** [BatchWorkflow.load_test_data] and the full [on_start] *)

(** The double quote and the line feed, as one-character strings. *)
Definition dquote : string := String (Ascii.ascii_of_nat 34) EmptyString.
Definition newline : string := String (Ascii.ascii_of_nat 10) EmptyString.

(** Writes a literal that contains double quotes with single quotes. *)
Fixpoint requote (s : string) : string :=
  match s with
  | EmptyString => EmptyString
  | String c s' =>
      String (if Ascii.eqb c (Ascii.ascii_of_nat 39) then Ascii.ascii_of_nat 34 else c)
        (requote s')
  end.

(** The built-in request line of [load_test_data]. *)
Definition minimal_test_data : string :=
  String.append
    (requote "{'custom_id': 'req-1', 'method': 'POST', 'url': '/v1/chat/completions', 'body': {'model': 'load-test', 'messages': [{'role': 'user', 'content': 'Hello'}], 'max_tokens': 100}}")
    newline.

(** What [open(path, 'r')] followed by [read()] does. *)
Inductive read_result : Type :=
| Contents (s : string)
| NotFound                  (* FileNotFoundError *)
| ReadRaises (e : exn).     (* anything else, e.g. OSError for a directory or an
                               unreadable file, UnicodeDecodeError *)

(** [load_test_data]: only [FileNotFoundError] is caught and replaced by
    the built-in line; every other exception of the read goes on to the
    caller. *)
Definition load_test_data (environ : gmap string string)
    (read : string -> read_result) : M string :=
  let test_data_file :=
    getenv environ "TEST_DATA_FILE" "/test_data/batch_input_medium.jsonl" in
  match read test_data_file with
  | Contents contents => ret contents
  | NotFound => ret minimal_test_data
  | ReadRaises e => raise e
  end.

(** [self.test_data = data] *)
Definition set_test_data (data : string) : M unit :=
  s <- get_self ;;
  set_self (mkBatchWorkflow (file_id s) (batch_id s) (output_file_id s)
              (error_file_id s) data).

(** [BatchWorkflow.on_start] with its call of [load_test_data]: the four
    identifiers are unset first, then the data is loaded and stored. *)
Definition workflow_on_start_loading (environ : gmap string string)
    (read : string -> read_result) : M unit :=
  set_file_id VNone ;;
  set_batch_id VNone ;;
  set_output_file_id VNone ;;
  set_error_file_id VNone ;;
  data <- load_test_data environ read ;;
  set_test_data data.

(** *** One pass over the tasks

    The task set runs its tasks in the order of their declaration; [r] is
    the draw of the verify step.  The pass is followed up to the first
    exception: [InterruptTaskSet] hands control back to the user. *)
Definition one_pass (server : nat -> Response) (r : Q) : M unit :=
  upload_file server ;;
  verify_upload server r ;;
  create_batch server ;;
  poll_batch_status server ;;
  retrieve_output server ;;
  retrieve_errors server.

(** *** [load_test.py] *)

(** [x in l] on a list of strings. *)
Definition str_in (x : string) (l : list string) : bool :=
  existsb (String.eqb x) l.

(** [l.insert(i, x)] for [i >= 0]: before position [i], or at the end when
    the list is shorter. *)
Definition list_insert_at {A} (i : nat) (x : A) (l : list A) : list A :=
  take i l ++ x :: drop i l.

(** What [main] makes of [sys.argv] before it calls locust; [LOCUSTFILE] is
    the path of [locustfile.py] next to the script. *)
Definition main_argv (LOCUSTFILE : string) (argv : list string) : list string :=
  if negb (str_in "--locustfile" argv) && negb (str_in "-f" argv) then
    list_insert_at 2 LOCUSTFILE (list_insert_at 1 "-f" argv)
  else argv.

(** [main()]: the [sys.argv] locust runs with and the status handed to
    [sys.exit]. *)
Definition main (locust_main : list string -> Z) (LOCUSTFILE : string)
    (argv : list string) : list string * Z :=
  let argv' := main_argv LOCUSTFILE argv in
  (argv', locust_main argv').

(** *** More ways to read a run *)

(** The HTTP calls of a trace, in order. *)
Definition requests_of (t : list event) : list event := List.filter is_request t.

(** Seconds slept in a trace. *)
Definition total_sleep (t : list event) : Q := fold_right Qplus 0%Q (sleeps t).

(** The sleeps of a poll step that uses all of its [n] attempts, the first
    lasting [start]. *)
Fixpoint sleep_budget (n : nat) (start : Q) : Q :=
  match n with
  | O => 0%Q
  | S n' => (start + sleep_budget n' (next_interval start))%Q
  end.

(** What no workflow step writes: the session, the class attribute, the
    exit code and the fixture data. *)
Definition untouched (w w' : World) : Prop :=
  client w' = client w /\
  shared_api_key w' = shared_api_key w /\
  process_exit_code w' = process_exit_code w /\
  test_data (self w') = test_data (self w).

(** [self.file_id = v] and [self.batch_id = v] on a world. *)
Definition with_file_id (v : value) (w : World) : World :=
  mkWorld
    (mkBatchWorkflow v (batch_id (self w)) (output_file_id (self w))
       (error_file_id (self w)) (test_data (self w)))
    (client w) (shared_api_key w) (process_exit_code w) (served w).

Definition with_batch_id (v : value) (w : World) : World :=
  mkWorld
    (mkBatchWorkflow (file_id (self w)) v (output_file_id (self w))
       (error_file_id (self w)) (test_data (self w)))
    (client w) (shared_api_key w) (process_exit_code w) (served w).

(** A poll response whose body is JSON but not an object. *)
Definition not_an_object (response : Response) : bool :=
  (status_code response =? 200) &&
  match json response with
  | Some (VDict _) | None => false
  | Some _ => true
  end.

(** The ways one pass of the poll loop's body can end, from world [w]. *)
Inductive pass (server : nat -> Response) (w : World)
  : outcome flow * World * list event -> Prop :=
| pass_running :
    is_running (server (served w)) = true ->
    pass server w
      (Normal Continue, answered 1 w,
       [EvRequest GET (UrlBatch (batch_id (self w))) NoPayload poll_name;
        EvSuccess poll_name])
| pass_terminal d :
    status_code (server (served w)) = 200 ->
    json (server (served w)) = Some (VDict d) ->
    in_strs (default VNone (d !! "status")) terminal_statuses = true ->
    pass server w
      (Normal Return,
       with_results (default VNone (d !! "output_file_id"))
                    (default VNone (d !! "error_file_id")) (answered 1 w),
       [EvRequest GET (UrlBatch (batch_id (self w))) NoPayload poll_name;
        EvSuccess poll_name])
| pass_failed msg :
    is_running (server (served w)) = false ->
    pass server w
      (Normal Return, answered 1 w,
       [EvRequest GET (UrlBatch (batch_id (self w))) NoPayload poll_name;
        EvFailure poll_name msg])
| pass_raised :
    not_an_object (server (served w)) = true ->
    pass server w
      (Raised AttributeError, answered 1 w,
       [EvRequest GET (UrlBatch (batch_id (self w))) NoPayload poll_name]).

(** What the step returns when the loop body ended with [f]. *)
Definition step_result (f : outcome flow) : outcome unit :=
  match f with
  | Normal _ => Normal tt
  | Raised e => Raised e
  end.

(** *** More concrete inputs *)

(** A whole pass that goes well: upload, verify, create, two polls, the
    output file. *)
Definition serves_a_batch (k : nat) : Response :=
  match k with
  | 0%nat => reply 201 (Some (object [("id", VStr "file-abc")]))
  | 1%nat => reply 200 None
  | 2%nat => reply 200 (Some (object [("id", VStr "batch-1")]))
  | 3%nat => in_progress
  | 4%nat => reply 200 (Some (VDict completed_entries))
  | _ => reply 200 None
  end.

Definition always_a_list (k : nat) : Response := reply 200 (Some (VList [])).

Definition always_garbled (k : nat) : Response := reply 200 None.

(** An accepted upload, a verified file, then a batch created without
    identifier. *)
Definition loses_batch_id (k : nat) : Response :=
  match k with
  | 0%nat => reply 201 (Some (object [("id", VStr "file-abc")]))
  | 1%nat => reply 200 None
  | _ => reply 200 (Some (VDict ∅))
  end.

(** A creation answered with an empty key. *)
Definition issues_empty_key (k : nat) : Response :=
  reply 201 (Some (object [("key", VStr "")])).

(** A workflow whose earlier pass left an output file behind. *)
Definition second_pass_world : World :=
  mkWorld (mkBatchWorkflow (VStr "file-abc") (VStr "batch-1") (VStr "file-out-0") VNone "")
    session0 VNone None 0.

(** No such file anywhere. *)
Definition no_files (path : string) : read_result := NotFound.

(** Every path is a directory. *)
Definition only_directories (path : string) : read_result := ReadRaises OSError.

(** A [float] that rejects everything. *)
Definition float_rejects (s : string) : option pyfloat := None.

(** Statistics of a run within both default thresholds. *)
Definition calm_total : StatsEntry :=
  mkStatsEntry 100 0 (FNum 0) (FNum 200) (fun _ => FNum 1000) (FNum 10).

(** ** Laws of the monad and of traces *)

Arguments requests_issued !t /.
Arguments failures_recorded !t /.
Arguments successes_recorded !t /.

Lemma bind_trace {A B} (m : M A) (k : A -> M B) w :
  trace (bind m k w) =
    trace (m w) ++
    match result (m w) with
    | Normal a => trace (k a (final (m w)))
    | Raised e => []
    end.
Proof.
  unfold bind, result, final, trace. destruct (m w) as [[[a|e] w1] t1]; simpl.
  - destruct (k a w1) as [[r w2] t2]. reflexivity.
  - symmetry. apply app_nil_r.
Qed.

Lemma requests_issued_app t1 t2 :
  requests_issued (t1 ++ t2) = (requests_issued t1 + requests_issued t2)%nat.
Proof. unfold requests_issued. rewrite List.filter_app. apply List.length_app. Qed.

Lemma failures_recorded_app t1 t2 :
  failures_recorded (t1 ++ t2) = (failures_recorded t1 + failures_recorded t2)%nat.
Proof. unfold failures_recorded. rewrite List.filter_app. apply List.length_app. Qed.

Lemma requests_issued_rounds id k : forall start,
  requests_issued (rounds id k start) = k.
Proof.
  induction k as [|k IH]; intros start; [reflexivity|].
  change (rounds id (S k) start)
    with ([EvRequest GET (UrlBatch id) NoPayload poll_name; EvSuccess poll_name;
           EvSleep start] ++ rounds id k (next_interval start)).
  rewrite requests_issued_app, IH. reflexivity.
Qed.

Lemma failures_recorded_rounds id k : forall start,
  failures_recorded (rounds id k start) = 0%nat.
Proof.
  induction k as [|k IH]; intros start; [reflexivity|].
  change (rounds id (S k) start)
    with ([EvRequest GET (UrlBatch id) NoPayload poll_name; EvSuccess poll_name;
           EvSleep start] ++ rounds id k (next_interval start)).
  rewrite failures_recorded_app, IH. reflexivity.
Qed.

Lemma length_rounds id k : forall start,
  length (rounds id k start) = (3 * k)%nat.
Proof.
  induction k as [|k IH]; intros start; [reflexivity|].
  cbn [rounds length]. rewrite IH. lia.
Qed.

(** Attempt [i] of a sequence of rounds: the request, the success mark and
    then the sleep, of the interval reached after [i] updates. *)
Lemma lookup_rounds id k : forall i start, (i < k)%nat ->
  rounds id k start !! (3 * i)%nat
    = Some (EvRequest GET (UrlBatch id) NoPayload poll_name) /\
  rounds id k start !! (3 * i + 1)%nat = Some (EvSuccess poll_name) /\
  rounds id k start !! (3 * i + 2)%nat
    = Some (EvSleep (Nat.iter i next_interval start)).
Proof.
  induction k as [|k IH]; intros i start Hi; [lia|].
  destruct i as [|i].
  - repeat split; reflexivity.
  - replace (3 * S i)%nat with (S (S (S (3 * i)))) by lia.
    cbn [rounds Nat.add lookup list_lookup].
    rewrite Nat.iter_succ_r. apply IH. lia.
Qed.

(** The sleeps of a trace that starts with [k] rounds: the [i]-th is the
    one that follows attempt [i]. *)
Lemma sleeps_rounds id k : forall i start rest, (i < k)%nat ->
  sleeps (rounds id k start ++ rest) !! i = Some (Nat.iter i next_interval start).
Proof.
  induction k as [|k IH]; intros i start rest Hi; [lia|].
  cbn [rounds app sleeps]. destruct i as [|i]; [reflexivity|].
  cbn [lookup list_lookup]. rewrite Nat.iter_succ_r. apply IH. lia.
Qed.

(** *** The backoff sequence in closed form *)

Lemma next_interval_closed (a : Q) :
  (next_interval (Qmin a 30) == Qmin (a * (3 # 2)) 30)%Q.
Proof.
  unfold next_interval.
  destruct (Q.min_spec a 30) as [[H1 E1]|[H1 E1]]; rewrite E1.
  - reflexivity.
  - destruct (Q.min_spec (30 * (3 # 2)) 30) as [[H2 E2]|[H2 E2]]; rewrite E2;
      destruct (Q.min_spec (a * (3 # 2)) 30) as [[H3 E3]|[H3 E3]]; rewrite E3;
      lra.
Qed.

Lemma next_interval_compat (x y : Q) :
  (x == y)%Q -> (next_interval x == next_interval y)%Q.
Proof. intros E. unfold next_interval. rewrite E. reflexivity. Qed.

Lemma interval_closed (i : nat) :
  (interval i == Qmin (2 * (3 # 2) ^ Z.of_nat i) 30)%Q.
Proof.
  induction i as [|i IH].
  - reflexivity.
  - unfold interval in *. cbn [Nat.iter].
    rewrite (next_interval_compat _ _ IH), next_interval_closed.
    rewrite Nat2Z.inj_succ, <- Z.add_1_r, Qpower_plus by discriminate.
    change ((3 # 2) ^ 1)%Q with (3 # 2)%Q.
    rewrite Qmult_assoc. reflexivity.
Qed.

(** ** Lemmas on the poll loop *)

Arguments in_strs : simpl never.

Lemma running_not_terminal status :
  in_strs status running_statuses = true ->
  in_strs status terminal_statuses = false.
Proof.
  destruct status as [| | |s| |]; try discriminate.
  unfold in_strs, running_statuses, terminal_statuses; simpl.
  repeat match goal with
         | |- context [String.eqb s ?c] => destruct (String.eqb_spec s c); subst
         end; simpl; try discriminate; reflexivity.
Qed.

Lemma reported_status_Some response status :
  reported_status response = Some status ->
  status_code response = 200 /\
  exists d, json response = Some (VDict d) /\ status = default VNone (d !! "status").
Proof.
  unfold reported_status.
  destruct (Z.eqb_spec (status_code response) 200) as [E|]; [|discriminate].
  destruct (json response) as [[| | | | |d]|]; try discriminate.
  intros [= <-]. eauto.
Qed.

Lemma answered_0 w : answered 0 w = w.
Proof. destruct w; reflexivity. Qed.

Lemma answered_answered j k w : answered j (answered k w) = answered (j + k) w.
Proof. unfold answered; simpl. f_equal. lia. Qed.

Lemma self_answered k w : self (answered k w) = self w.
Proof. reflexivity. Qed.

Lemma served_answered k w : served (answered k w) = (k + served w)%nat.
Proof. reflexivity. Qed.

Section PollFacts.

Variable server : nat -> Response.

(** Unfolds one pass of the loop body down to the tests on the response. *)
Ltac run_poll_once :=
  unfold poll_once, bind, get_self, get_world, http, send, receive, ret, dict_get,
    set_output_file_id, set_error_file_id, set_self, put_world, success,
    failure, emit, raise;
  simpl.

Lemma poll_once_running w :
  is_running (server (served w)) = true ->
  poll_once server w =
    (Normal Continue, answered 1 w,
     [EvRequest GET (UrlBatch (batch_id (self w))) NoPayload poll_name;
      EvSuccess poll_name]).
Proof.
  unfold is_running. destruct (reported_status _) as [status|] eqn:E; [|discriminate].
  apply reported_status_Some in E as (Hc & d & Hj & ->). intros Hrun.
  run_poll_once. rewrite Hc, Hj. simpl.
  rewrite (running_not_terminal _ Hrun), Hrun. reflexivity.
Qed.

Lemma poll_once_terminal w d :
  status_code (server (served w)) = 200 ->
  json (server (served w)) = Some (VDict d) ->
  in_strs (default VNone (d !! "status")) terminal_statuses = true ->
  poll_once server w =
    (Normal Return,
     with_results (default VNone (d !! "output_file_id"))
                  (default VNone (d !! "error_file_id")) (answered 1 w),
     [EvRequest GET (UrlBatch (batch_id (self w))) NoPayload poll_name;
      EvSuccess poll_name]).
Proof.
  intros Hc Hj Hterm. run_poll_once. rewrite Hc, Hj. simpl.
  rewrite Hterm. reflexivity.
Qed.

Lemma poll_once_unknown w d :
  status_code (server (served w)) = 200 ->
  json (server (served w)) = Some (VDict d) ->
  in_strs (default VNone (d !! "status")) terminal_statuses = false ->
  in_strs (default VNone (d !! "status")) running_statuses = false ->
  poll_once server w =
    (Normal Return, answered 1 w,
     [EvRequest GET (UrlBatch (batch_id (self w))) NoPayload poll_name;
      EvFailure poll_name (UnknownBatchStatus (default VNone (d !! "status")))]).
Proof.
  intros Hc Hj Hterm Hrun. run_poll_once. rewrite Hc, Hj. simpl.
  rewrite Hterm, Hrun. reflexivity.
Qed.

Lemma poll_once_parse_failure w :
  status_code (server (served w)) = 200 ->
  json (server (served w)) = None ->
  poll_once server w =
    (Normal Return, answered 1 w,
     [EvRequest GET (UrlBatch (batch_id (self w))) NoPayload poll_name;
      EvFailure poll_name PollParseFailed]).
Proof.
  intros Hc Hj. run_poll_once. rewrite Hc, Hj. reflexivity.
Qed.

Lemma poll_once_http_error w :
  status_code (server (served w)) <> 200 ->
  poll_once server w =
    (Normal Return, answered 1 w,
     [EvRequest GET (UrlBatch (batch_id (self w))) NoPayload poll_name;
      EvFailure poll_name (PollFailed (status_code (server (served w))))]).
Proof.
  intros Hc. run_poll_once.
  destruct (Z.eqb_spec (status_code (server (served w))) 200); [contradiction|].
  reflexivity.
Qed.

(** A body that is valid JSON but not an object: [data.get] raises
    [AttributeError], which no [except] clause of the step catches. *)
Lemma poll_once_not_dict w data :
  status_code (server (served w)) = 200 ->
  json (server (served w)) = Some data ->
  (forall d, data <> VDict d) ->
  poll_once server w =
    (Raised AttributeError, answered 1 w,
     [EvRequest GET (UrlBatch (batch_id (self w))) NoPayload poll_name]).
Proof.
  intros Hc Hj Hd. run_poll_once. rewrite Hc, Hj.
  destruct data; try reflexivity. exfalso; eapply Hd; reflexivity.
Qed.

(** [k] running responses in a row take the loop through [k] rounds. *)
Lemma poll_loop_running k : forall n start w,
  (forall j, (j < k)%nat -> is_running (server (j + served w)) = true) ->
  poll_loop server (k + n) start w =
    let '(f, w', t) :=
      poll_loop server n (Nat.iter k next_interval start) (answered k w) in
    (f, w', rounds (batch_id (self w)) k start ++ t).
Proof.
  induction k as [|k IH]; intros n start w Hrun.
  - simpl. rewrite answered_0. destruct (poll_loop server n start w) as [[f w'] t].
    reflexivity.
  - change (S k + n)%nat with (S (k + n)). cbn [poll_loop].
    unfold bind at 1. rewrite poll_once_running by (apply (Hrun 0%nat); lia).
    unfold bind at 1, sleep, emit.
    rewrite IH.
    2:{ intros j Hj. rewrite served_answered.
        replace (j + (1 + served w))%nat with (S j + served w)%nat by lia.
        apply Hrun. lia. }
    rewrite answered_answered, self_answered.
    replace (k + 1)%nat with (S k) by lia.
    rewrite <- Nat.iter_succ_r.
    destruct (poll_loop server n _ _) as [[f w'] t].
    reflexivity.
Qed.

(** Every pass of the loop body issues exactly one status request, first
    thing. *)
Lemma poll_once_trace_head w :
  exists t, trace (poll_once server w) =
    EvRequest GET (UrlBatch (batch_id (self w))) NoPayload poll_name :: t /\
    requests_issued t = 0%nat.
Proof.
  run_poll_once.
  destruct (status_code (server (served w)) =? 200); [|eauto].
  destruct (json (server (served w))) as [data|]; [|eauto].
  destruct data; simpl; eauto.
  destruct (in_strs _ terminal_statuses); [eauto|].
  destruct (in_strs _ running_statuses); eauto.
Qed.

Lemma poll_loop_trace_head n start w :
  exists t, trace (poll_loop server (S n) start w) =
    EvRequest GET (UrlBatch (batch_id (self w))) NoPayload poll_name :: t.
Proof.
  cbn [poll_loop]. rewrite bind_trace.
  destruct (poll_once_trace_head w) as (t & -> & _). simpl. eauto.
Qed.

Lemma poll_loop_requests n : forall start w,
  (requests_issued (trace (poll_loop server n start w)) <= n)%nat.
Proof.
  induction n as [|n IH]; intros start w; [simpl; lia|].
  cbn [poll_loop]. rewrite bind_trace, requests_issued_app.
  destruct (poll_once_trace_head w) as (t & -> & Ht).
  change (requests_issued (_ :: t)) with (S (requests_issued t)). rewrite Ht.
  destruct (result (poll_once server w)) as [[|]|e]; try (simpl; lia).
  rewrite bind_trace, requests_issued_app.
  specialize (IH (next_interval start) (final (sleep start (final (poll_once server w))))).
  simpl in *. lia.
Qed.

(** [poll_batch_status] once the guard on [batch_id] has passed. *)
Lemma poll_batch_status_polls w :
  truthy (batch_id (self w)) = true ->
  poll_batch_status server w =
    match poll_loop server max_polls 2 w with
    | (Normal Return, w', t) => (Normal tt, w', t)
    | (Normal Continue, w', t) =>
        (Normal tt, w', t ++ [EvPrint (DidNotComplete (batch_id (self w')) max_polls)])
    | (Raised e, w', t) => (Raised e, w', t)
    end.
Proof.
  intros Hid. unfold poll_batch_status.
  generalize (poll_loop server max_polls 2); intros loop.
  unfold bind, get_self, get_world, ret, print, emit. simpl. rewrite Hid. simpl.
  destruct (loop w) as [[[[|]|e] w'] t]; rewrite ?app_nil_r; reflexivity.
Qed.

Lemma poll_batch_status_interrupts w :
  truthy (batch_id (self w)) = false ->
  poll_batch_status server w = (Raised InterruptTaskSet, w, []).
Proof.
  intros Hid. unfold poll_batch_status.
  generalize (poll_loop server max_polls 2); intros loop.
  unfold bind, get_self, get_world, ret. simpl. rewrite Hid. reflexivity.
Qed.

(** The run in which attempts [0 .. i-1] found the batch running: the loop
    is at attempt [i], [i] rounds behind it. *)
Lemma poll_loop_reaches i w :
  (i < max_polls)%nat ->
  (forall j, (j < i)%nat -> is_running (server (j + served w)) = true) ->
  poll_loop server max_polls 2 w =
    let '(f, w', t) :=
      match poll_once server (answered i w) with
      | (Normal Continue, w1, t1) =>
          let '(f, w2, t2) :=
            poll_loop server (max_polls - S i) (interval (S i)) w1 in
          (f, w2, t1 ++ EvSleep (interval i) :: t2)
      | (Normal Return, w1, t1) => (Normal Return, w1, t1)
      | (Raised e, w1, t1) => (Raised e, w1, t1)
      end in
    (f, w', rounds (batch_id (self w)) i 2 ++ t).
Proof.
  intros Hi Hrun.
  replace max_polls with (i + S (max_polls - S i))%nat at 1 by lia.
  rewrite poll_loop_running by assumption.
  cbn [poll_loop]. unfold bind at 1.
  destruct (poll_once server (answered i w)) as [[[[|]|e] w1] t1].
  - unfold bind, sleep, emit. fold (interval i).
    change (next_interval (interval i)) with (interval (S i)).
    destruct (poll_loop server _ _ w1) as [[f w2] t2]. reflexivity.
  - unfold ret. rewrite ?app_nil_r. reflexivity.
  - reflexivity.
Qed.

(** When the pass at attempt [i] returns, so does the step, right there. *)
Lemma poll_batch_status_returns_at i w w1 t1 :
  truthy (batch_id (self w)) = true ->
  (i < max_polls)%nat ->
  (forall j, (j < i)%nat -> is_running (server (j + served w)) = true) ->
  poll_once server (answered i w) = (Normal Return, w1, t1) ->
  poll_batch_status server w =
    (Normal tt, w1, rounds (batch_id (self w)) i 2 ++ t1).
Proof.
  intros Hid Hi Hrun Honce.
  rewrite poll_batch_status_polls by assumption.
  rewrite (poll_loop_reaches i) by assumption.
  rewrite Honce. reflexivity.
Qed.

(** When all [max_polls] attempts find the batch running, the step sleeps
    after each and ends on the log line. *)
Lemma poll_batch_status_exhausted w :
  truthy (batch_id (self w)) = true ->
  (forall j, (j < max_polls)%nat -> is_running (server (j + served w)) = true) ->
  poll_batch_status server w =
    (Normal tt, answered max_polls w,
     rounds (batch_id (self w)) max_polls 2
       ++ [EvPrint (DidNotComplete (batch_id (self w)) max_polls)]).
Proof.
  intros Hid Hrun.
  rewrite poll_batch_status_polls by assumption.
  replace max_polls with (max_polls + 0)%nat at 1 by lia.
  rewrite poll_loop_running by assumption.
  cbn [poll_loop ret]. rewrite app_nil_r. reflexivity.
Qed.

(** After attempts [0 .. i] found the batch running, the trace is [S i]
    rounds followed by the next status request, or by the log line when
    attempt [i] was the last of the budget. *)
Lemma poll_batch_status_running_prefix w i :
  truthy (batch_id (self w)) = true ->
  (i < max_polls)%nat ->
  (forall j, (j <= i)%nat -> is_running (server (j + served w)) = true) ->
  exists rest,
    trace (poll_batch_status server w) = rounds (batch_id (self w)) (S i) 2 ++ rest /\
    ((S i < max_polls)%nat -> exists rest',
       rest = EvRequest GET (UrlBatch (batch_id (self w))) NoPayload poll_name :: rest') /\
    (S i = max_polls ->
       rest = [EvPrint (DidNotComplete (batch_id (self w)) max_polls)]).
Proof.
  intros Hid Hi Hrun.
  destruct (Nat.eq_dec (S i) max_polls) as [E | Hne].
  - rewrite poll_batch_status_exhausted; [|assumption|intros j Hj; apply Hrun; lia].
    rewrite <- E. eexists; split; [reflexivity|]. split; [lia|reflexivity].
  - rewrite poll_batch_status_polls by assumption.
    assert (Hloop := poll_loop_running (S i) (S (max_polls - S (S i))) 2 w).
    replace (S i + S (max_polls - S (S i)))%nat with max_polls in Hloop by lia.
    rewrite Hloop by (intros j Hj; apply Hrun; lia). clear Hloop.
    destruct (poll_loop_trace_head (max_polls - S (S i))
                (Nat.iter (S i) next_interval 2%Q) (answered (S i) w)) as [t0 Ht0].
    rewrite self_answered in Ht0.
    destruct (poll_loop server (S _) _ _) as [[f w'] t]. unfold trace in Ht0.
    cbn [snd] in Ht0. subst t.
    destruct f as [[|]|e]; unfold trace; cbn [snd]; rewrite <- ?app_assoc;
      (eexists; split; [reflexivity|]; split; [intros _; eexists; reflexivity | lia]).
Qed.

End PollFacts.

(** ** The polling step: stopping, backoff, budget and frame *)

Section PollClaims.

Variable server : nat -> Response.

(** C1.  A response with HTTP 200 whose JSON object reports [completed],
    [failed], [cancelled] or [expired] ends the step at once: the status
    request that fetched it (attempt [i], reached through [i] running
    responses) is the last event but for its success mark, and
    [output_file_id] and [error_file_id] hold the entries of that response
    ([None] for an entry the response does not carry). *)
Theorem poll_stops_on_terminal_status w i d :
  truthy (batch_id (self w)) = true ->
  (i < max_polls)%nat ->
  (forall j, (j < i)%nat -> is_running (server (j + served w)) = true) ->
  status_code (server (i + served w)) = 200 ->
  json (server (i + served w)) = Some (VDict d) ->
  in_strs (default VNone (d !! "status")) terminal_statuses = true ->
  let r := poll_batch_status server w in
  result r = Normal tt /\
  trace r = rounds (batch_id (self w)) i 2
              ++ [EvRequest GET (UrlBatch (batch_id (self w))) NoPayload poll_name;
                  EvSuccess poll_name] /\
  requests_issued (trace r) = S i /\
  served (final r) = (S i + served w)%nat /\
  output_file_id (self (final r)) = default VNone (d !! "output_file_id") /\
  error_file_id (self (final r)) = default VNone (d !! "error_file_id").
Proof.
  intros Hid Hi Hrun Hc Hj Hterm r. subst r.
  rewrite (poll_batch_status_returns_at server i w _ _ Hid Hi Hrun
             (poll_once_terminal server (answered i w) d Hc Hj Hterm)).
  unfold result, final, trace; cbn [fst snd].
  repeat split.
  rewrite requests_issued_app, requests_issued_rounds. simpl. lia.
Qed.

(** C6.  A response with HTTP 200 whose JSON object carries a status that
    is none of the seven known ones (a missing status reads as [None])
    records one failure, with the offending status, and ends the step: the
    request that fetched it is the last one. *)
Theorem poll_unknown_status_fails w i d :
  truthy (batch_id (self w)) = true ->
  (i < max_polls)%nat ->
  (forall j, (j < i)%nat -> is_running (server (j + served w)) = true) ->
  status_code (server (i + served w)) = 200 ->
  json (server (i + served w)) = Some (VDict d) ->
  in_strs (default VNone (d !! "status")) (terminal_statuses ++ running_statuses) = false ->
  let r := poll_batch_status server w in
  result r = Normal tt /\
  trace r = rounds (batch_id (self w)) i 2
              ++ [EvRequest GET (UrlBatch (batch_id (self w))) NoPayload poll_name;
                  EvFailure poll_name
                    (UnknownBatchStatus (default VNone (d !! "status")))] /\
  failures_recorded (trace r) = 1%nat /\
  requests_issued (trace r) = S i /\
  served (final r) = (S i + served w)%nat.
Proof.
  intros Hid Hi Hrun Hc Hj Hnone r. subst r.
  unfold in_strs in Hnone. rewrite existsb_app in Hnone.
  apply orb_false_iff in Hnone as [Hterm Hnotrun].
  rewrite (poll_batch_status_returns_at server i w _ _ Hid Hi Hrun
             (poll_once_unknown server (answered i w) d Hc Hj Hterm Hnotrun)).
  unfold result, final, trace; cbn [fst snd].
  repeat split.
  - rewrite failures_recorded_app, failures_recorded_rounds. reflexivity.
  - rewrite requests_issued_app, requests_issued_rounds. simpl. lia.
Qed.

(** C10.  When the step ends for any reason other than a terminal status
    (after [i] running responses: a response that is not HTTP 200, one
    whose body is not JSON, one with an unknown status, or no attempt left)
    it returns normally and [output_file_id] and [error_file_id] are what
    they were before the step. *)
Theorem poll_keeps_result_ids w i :
  truthy (batch_id (self w)) = true ->
  (i <= max_polls)%nat ->
  (forall j, (j < i)%nat -> is_running (server (j + served w)) = true) ->
  i = max_polls \/
  http_error (server (i + served w)) = true \/
  parse_failure (server (i + served w)) = true \/
  unknown_status (server (i + served w)) = true ->
  let r := poll_batch_status server w in
  result r = Normal tt /\
  output_file_id (self (final r)) = output_file_id (self w) /\
  error_file_id (self (final r)) = error_file_id (self w).
Proof.
  intros Hid Hi Hrun Hcase r. subst r.
  destruct (Nat.eq_dec i max_polls) as [-> | Hne].
  { rewrite poll_batch_status_exhausted by assumption. repeat split. }
  assert (Hlt : (i < max_polls)%nat) by lia.
  destruct Hcase as [? | [Hcase | [Hcase | Hcase]]]; [contradiction| | |].
  - unfold http_error in Hcase. apply negb_true_iff, Z.eqb_neq in Hcase.
    rewrite (poll_batch_status_returns_at server i w _ _ Hid Hlt Hrun
               (poll_once_http_error server (answered i w) Hcase)).
    repeat split.
  - unfold parse_failure in Hcase. apply andb_true_iff in Hcase as [Hc Hj].
    apply Z.eqb_eq in Hc. destruct (json _) eqn:E in Hj; [discriminate|].
    rewrite (poll_batch_status_returns_at server i w _ _ Hid Hlt Hrun
               (poll_once_parse_failure server (answered i w) Hc E)).
    repeat split.
  - unfold unknown_status in Hcase.
    destruct (reported_status _) as [status|] eqn:E; [|discriminate].
    apply reported_status_Some in E as (Hc & d & Hj & ->).
    apply andb_true_iff in Hcase as [Hterm Hnotrun].
    apply negb_true_iff in Hterm, Hnotrun.
    rewrite (poll_batch_status_returns_at server i w _ _ Hid Hlt Hrun
               (poll_once_unknown server (answered i w) d Hc Hj Hterm Hnotrun)).
    repeat split.
Qed.

(** C8.  The step never issues more than 60 status requests; when all 60
    find the batch running it issues exactly 60, records no failure, and
    ends normally on the log line saying the batch did not complete. *)
Theorem poll_budget w :
  let r := poll_batch_status server w in
  (requests_issued (trace r) <= 60)%nat /\
  (truthy (batch_id (self w)) = true ->
   (forall j, (j < 60)%nat -> is_running (server (j + served w)) = true) ->
   result r = Normal tt /\
   requests_issued (trace r) = 60%nat /\
   failures_recorded (trace r) = 0%nat /\
   last (trace r) = Some (EvPrint (DidNotComplete (batch_id (self w)) 60))).
Proof.
  intros r; subst r. split.
  - destruct (truthy (batch_id (self w))) eqn:Hid.
    + rewrite poll_batch_status_polls by assumption.
      pose proof (poll_loop_requests server max_polls 2 w) as Hle.
      destruct (poll_loop server max_polls 2 w) as [[[[|]|e] w'] t];
        unfold trace in *; cbn [snd] in *; rewrite ?requests_issued_app;
        simpl; change max_polls with 60%nat in Hle; lia.
    + rewrite poll_batch_status_interrupts by assumption. simpl. lia.
  - intros Hid Hrun.
    rewrite poll_batch_status_exhausted by assumption.
    unfold result, trace; cbn [fst snd].
    rewrite requests_issued_app, failures_recorded_app, requests_issued_rounds,
      failures_recorded_rounds, last_snoc.
    repeat split.
Qed.

(** C3, as amended.  When attempt [i] (from 0, below 60) and all before it
    find the batch validating, in progress or finalizing, the trace has, in
    this order, the request of attempt [i], its success mark and a sleep of
    the interval in force (the [i]-th sleep of the step), which equals
    [min (2 * 1.5^i) 30]; what follows the sleep is the next status request
    when [i < 59], and the closing log line, after 60 requests in all, when
    [i = 59]. *)
Theorem poll_backoff w i :
  truthy (batch_id (self w)) = true ->
  (i < 60)%nat ->
  (forall j, (j <= i)%nat -> is_running (server (j + served w)) = true) ->
  let t := trace (poll_batch_status server w) in
  let request := EvRequest GET (UrlBatch (batch_id (self w))) NoPayload poll_name in
  t !! (3 * i)%nat = Some request /\
  t !! (3 * i + 1)%nat = Some (EvSuccess poll_name) /\
  t !! (3 * i + 2)%nat = Some (EvSleep (interval i)) /\
  sleeps t !! i = Some (interval i) /\
  (interval i == Qmin (2 * (3 # 2) ^ Z.of_nat i) 30)%Q /\
  ((i < 59)%nat ->
   t !! (3 * i + 3)%nat = Some request /\ polling_continues t i) /\
  (i = 59%nat ->
   t !! (3 * i + 3)%nat = Some (EvPrint (DidNotComplete (batch_id (self w)) 60)) /\
   requests_issued t = 60%nat).
Proof.
  intros Hid Hi Hrun t request. subst t request.
  destruct (poll_batch_status_running_prefix server w i Hid Hi Hrun)
    as (rest & -> & Hnext & Hlast).
  destruct (lookup_rounds (batch_id (self w)) (S i) i 2) as (H0 & H1 & H2); [lia|].
  pose proof (length_rounds (batch_id (self w)) (S i) 2) as Hlen.
  repeat split.
  - rewrite lookup_app_l by lia. exact H0.
  - rewrite lookup_app_l by lia. exact H1.
  - rewrite lookup_app_l by lia. exact H2.
  - apply sleeps_rounds. lia.
  - apply interval_closed.
  - destruct Hnext as [rest' ->]; [unfold max_polls; lia|].
    rewrite lookup_app_r by lia.
    replace (3 * i + 3 - length _)%nat with 0%nat by lia. reflexivity.
  - destruct Hnext as [rest' ->]; [unfold max_polls; lia|].
    unfold polling_continues.
    rewrite requests_issued_app, requests_issued_rounds.
    change (requests_issued (?e :: rest')) with (S (requests_issued rest')). lia.
  - rewrite Hlast by (unfold max_polls; lia).
    rewrite lookup_app_r by lia.
    replace (3 * i + 3 - length _)%nat with 0%nat by lia. reflexivity.
  - rewrite Hlast by (unfold max_polls; lia).
    rewrite requests_issued_app, requests_issued_rounds. simpl. lia.
Qed.

End PollClaims.

Lemma poll_stops_on_terminal_status_witness :
  let r := poll_batch_status completes_at_third polling_world in
  result r = Normal tt /\
  requests_issued (trace r) = 3%nat /\
  output_file_id (self (final r)) = VStr "file-out-1" /\
  error_file_id (self (final r)) = VNone.
Proof.
  destruct (poll_stops_on_terminal_status completes_at_third polling_world 2
              completed_entries) as (Hr & _ & Hn & _ & Ho & He).
  - reflexivity.
  - unfold max_polls; lia.
  - intros [|[|j]] Hj; [reflexivity | reflexivity | lia].
  - reflexivity.
  - reflexivity.
  - reflexivity.
  - split; [exact Hr|]. split; [exact Hn|]. split; [exact Ho | exact He].
Defined.

Lemma poll_unknown_status_fails_witness :
  let r := poll_batch_status pauses_at_second polling_world in
  result r = Normal tt /\
  failures_recorded (trace r) = 1%nat /\
  requests_issued (trace r) = 2%nat.
Proof.
  destruct (poll_unknown_status_fails pauses_at_second polling_world 1
              paused_entries) as (Hr & _ & Hf & Hn & _).
  - reflexivity.
  - unfold max_polls; lia.
  - intros [|j] Hj; [reflexivity | lia].
  - reflexivity.
  - reflexivity.
  - reflexivity.
  - split; [exact Hr|]. split; [exact Hf | exact Hn].
Defined.

Lemma poll_keeps_result_ids_witness :
  let r := poll_batch_status always_unavailable polling_world in
  result r = Normal tt /\
  output_file_id (self (final r)) = VNone /\
  error_file_id (self (final r)) = VNone.
Proof.
  apply (poll_keeps_result_ids always_unavailable polling_world 0).
  - reflexivity.
  - unfold max_polls; lia.
  - intros j Hj; lia.
  - right; left; reflexivity.
Defined.

Lemma poll_budget_witness :
  let r := poll_batch_status always_in_progress polling_world in
  result r = Normal tt /\
  requests_issued (trace r) = 60%nat /\
  failures_recorded (trace r) = 0%nat /\
  last (trace r) = Some (EvPrint (DidNotComplete (VStr "batch-1") 60)).
Proof.
  apply (poll_budget always_in_progress polling_world).
  - reflexivity.
  - intros j Hj; reflexivity.
Defined.

Lemma poll_backoff_witness :
  let t := trace (poll_batch_status always_in_progress polling_world) in
  t !! 23%nat = Some (EvSleep (interval 7)) /\
  (interval 7 == 30)%Q /\
  polling_continues t 7.
Proof.
  destruct (poll_backoff always_in_progress polling_world 7)
    as (_ & _ & Hs & _ & Hq & Hc & _).
  - reflexivity.
  - lia.
  - intros j Hj; reflexivity.
  - split; [exact Hs|]. split; [rewrite Hq; reflexivity|].
    apply Hc. lia.
Defined.

(** C3, as stated, fails at the last attempt of the budget: attempt 59
    finds the batch in progress, and polling does not continue. *)
Lemma poll_backoff_last_attempt :
  let t := trace (poll_batch_status always_in_progress polling_world) in
  is_running (always_in_progress 59) = true /\
  requests_issued t = 60%nat /\
  ~ polling_continues t 59.
Proof.
  cbv zeta.
  rewrite poll_batch_status_exhausted by (intros; reflexivity).
  unfold trace, polling_continues; cbn [snd].
  rewrite requests_issued_app, requests_issued_rounds.
  split; [reflexivity|]. split; [reflexivity|]. simpl. unfold max_polls. lia.
Qed.

(** ** The single-request steps *)

Section StepClaims.

Variable server : nat -> Response.

(** Unfolds a step down to the tests on the response. *)
Ltac run_step :=
  unfold upload_file, verify_upload, create_batch, retrieve_output,
    retrieve_errors, poll_batch_status, bind, get_self, get_client, get_world,
    http, send, receive, ret, dict_get, set_file_id, set_batch_id, set_self, put_world,
    success, failure, print, emit, raise, interrupt, result, final, trace;
  simpl.

Lemma upload_file_accepted w d :
  created (server (served w)) = true ->
  json (server (served w)) = Some (VDict d) ->
  truthy (default VNone (d !! "id")) = true ->
  let r := upload_file server w in
  result r = Normal tt /\
  file_id (self (final r)) = default VNone (d !! "id") /\
  marked_success (trace r).
Proof.
  intros Hc Hj Hid. run_step.
  destruct (resp_headers (server (served w)) !! "allow"); simpl;
    rewrite Hc, Hj; simpl; rewrite Hid; simpl; repeat split.
Qed.

Lemma upload_file_rejected w :
  created (server (served w)) = false ->
  let r := upload_file server w in
  result r = Normal tt /\
  file_id (self (final r)) = file_id (self w) /\
  marked_failed (trace r).
Proof.
  intros Hc. run_step.
  destruct (resp_headers (server (served w)) !! "allow"); simpl;
    rewrite Hc; simpl; repeat split.
Qed.

(** The upload step does check for the identifier: a success status whose
    object has no [id] is marked failed. *)
Lemma upload_file_missing_id_is_failure w d :
  created (server (served w)) = true ->
  json (server (served w)) = Some (VDict d) ->
  d !! "id" = None ->
  let r := upload_file server w in
  result r = Normal tt /\
  file_id (self (final r)) = VNone /\
  marked_failed (trace r).
Proof.
  intros Hc Hj Hid. run_step.
  destruct (resp_headers (server (served w)) !! "allow"); simpl;
    rewrite Hc, Hj; simpl; rewrite Hid; simpl; repeat split.
Qed.

(** [on_start] leaves the four identifiers unset. *)
Lemma workflow_on_start_clears data w :
  let s := self (final (workflow_on_start data w)) in
  file_id s = VNone /\ batch_id s = VNone /\
  output_file_id s = VNone /\ error_file_id s = VNone.
Proof. repeat split. Qed.

(** C5.  On a 201 response whose body is the object [{"id": "file-abc"}]
    the upload step sets [file_id] to ["file-abc"] and is marked a success;
    on a 500 response it is marked failed and [file_id] is left as it
    was. *)
Theorem upload_file_captures_id w :
  let response := server (served w) in
  let r := upload_file server w in
  (status_code response = 201 ->
   json response = Some (VDict {[ "id" := VStr "file-abc" ]}) ->
   file_id (self (final r)) = VStr "file-abc" /\ marked_success (trace r)) /\
  (status_code response = 500 ->
   file_id (self (final r)) = file_id (self w) /\ marked_failed (trace r)).
Proof.
  intros response r; subst response r. split.
  - intros Hc Hj.
    destruct (upload_file_accepted w {[ "id" := VStr "file-abc" ]}) as (_ & Hid & Hm);
      [unfold created; rewrite Hc; reflexivity | assumption | reflexivity |].
    split; [rewrite Hid; reflexivity | exact Hm].
  - intros Hc.
    destruct (upload_file_rejected w) as (_ & Hid & Hm);
      [unfold created; rewrite Hc; reflexivity |].
    split; assumption.
Qed.

(** C4, what the code does.  A create-batch response with a success status
    whose JSON object has no [id] entry is marked a success, and [batch_id]
    is set to [None]: no failure is recorded. *)
Theorem create_batch_missing_id_is_success w d :
  truthy (file_id (self w)) = true ->
  created (server (served w)) = true ->
  json (server (served w)) = Some (VDict d) ->
  d !! "id" = None ->
  let r := create_batch server w in
  result r = Normal tt /\
  batch_id (self (final r)) = VNone /\
  marked_success (trace r) /\
  failures_recorded (trace r) = 0%nat.
Proof.
  intros Hf Hc Hj Hid. run_step. rewrite Hf. simpl. rewrite Hc, Hj. simpl.
  rewrite Hid. repeat split.
Qed.

(** C7.  A step whose prerequisite identifier is unset (or otherwise falsy)
    issues no HTTP call and records no failure: verify, create-batch and
    poll end by interrupting the task set, retrieve-output and
    retrieve-errors by returning; none changes the state. *)
Theorem missing_prerequisite_is_silent w (rnd : Q) :
  (truthy (file_id (self w)) = false ->
   verify_upload server rnd w = (Raised InterruptTaskSet, w, []) /\
   create_batch server w = (Raised InterruptTaskSet, w, [])) /\
  (truthy (batch_id (self w)) = false ->
   poll_batch_status server w = (Raised InterruptTaskSet, w, [])) /\
  (truthy (output_file_id (self w)) = false ->
   retrieve_output server w = (Normal tt, w, [])) /\
  (truthy (error_file_id (self w)) = false ->
   retrieve_errors server w = (Normal tt, w, [])).
Proof.
  split; [intros H; split | split; [intros H | split; intros H]].
  - run_step. rewrite H. reflexivity.
  - run_step. rewrite H. reflexivity.
  - apply poll_batch_status_interrupts, H.
  - run_step. rewrite H. reflexivity.
  - run_step. rewrite H. reflexivity.
Qed.

End StepClaims.

Lemma upload_file_captures_id_witness :
  (let r := upload_file accepts_upload world0 in
   file_id (self (final r)) = VStr "file-abc" /\ marked_success (trace r)) /\
  (let r := upload_file always_fails world0 in
   file_id (self (final r)) = VNone /\ marked_failed (trace r)).
Proof.
  split.
  - apply (upload_file_captures_id accepts_upload world0); reflexivity.
  - apply (upload_file_captures_id always_fails world0); reflexivity.
Defined.

Lemma create_batch_missing_id_is_success_witness :
  let r := create_batch creates_without_id uploaded_world in
  result r = Normal tt /\
  batch_id (self (final r)) = VNone /\
  marked_success (trace r) /\
  failures_recorded (trace r) = 0%nat.
Proof.
  apply (create_batch_missing_id_is_success creates_without_id uploaded_world ∅);
    reflexivity.
Defined.

(** With the identifier missing, the poll step that follows interrupts the
    task set: the iteration ends with one request made and no failure
    recorded anywhere. *)
Lemma missing_batch_id_goes_unrecorded :
  let r := (create_batch creates_without_id ;;
            poll_batch_status creates_without_id) uploaded_world in
  result r = Raised InterruptTaskSet /\
  requests_issued (trace r) = 1%nat /\
  failures_recorded (trace r) = 0%nat.
Proof. vm_compute. repeat split. Qed.

Lemma missing_prerequisite_is_silent_witness :
  verify_upload always_fails (1 # 4) world0 = (Raised InterruptTaskSet, world0, []) /\
  create_batch always_fails world0 = (Raised InterruptTaskSet, world0, []) /\
  poll_batch_status always_fails world0 = (Raised InterruptTaskSet, world0, []) /\
  retrieve_output always_fails world0 = (Normal tt, world0, []) /\
  retrieve_errors always_fails world0 = (Normal tt, world0, []).
Proof.
  destruct (missing_prerequisite_is_silent always_fails world0 (1 # 4))
    as (Hfile & Hbatch & Hout & Herr).
  destruct (Hfile eq_refl) as [Hverify Hcreate].
  split; [exact Hverify|]. split; [exact Hcreate|].
  split; [exact (Hbatch eq_refl)|]. split; [exact (Hout eq_refl) | exact (Herr eq_refl)].
Defined.

(** ** The run-end hook *)

Section HookClaims.

Variable environ : gmap string string.
Variable float : string -> option pyfloat.
Variable exported : bool.

(** C9.  Whatever the two thresholds and the final statistics are, the hook
    returns normally and leaves the state, the process exit code included,
    as it found it; a p95 above its threshold and an error rate above its
    threshold are each reported, under the failure banner and without the
    all-passed line. *)
Theorem on_test_stop_reports_and_returns total w p95_threshold_ms error_rate_threshold :
  float (getenv environ "P95_THRESHOLD_MS" "1000") = Some p95_threshold_ms ->
  float (getenv environ "ERROR_RATE_THRESHOLD" "0.01") = Some error_rate_threshold ->
  let r := on_test_stop environ float exported total w in
  let p95 := get_response_time_percentile total (95 # 100) in
  let error_rate := fail_ratio total in
  result r = Normal tt /\
  final r = w /\
  process_exit_code (final r) = process_exit_code w /\
  (float_gt p95 p95_threshold_ms = true ->
   In (EvPrint (AssertionFailure (P95Exceeded p95 p95_threshold_ms))) (trace r)) /\
  (float_gt error_rate error_rate_threshold = true ->
   In (EvPrint (AssertionFailure (ErrorRateExceeded error_rate error_rate_threshold)))
      (trace r)) /\
  (float_gt p95 p95_threshold_ms = true \/
   float_gt error_rate error_rate_threshold = true ->
   In (EvPrint AssertionFailuresBanner) (trace r) /\
   ~ In (EvPrint AllAssertionsPassed) (trace r)).
Proof.
  intros Hp He r p95 error_rate. subst r p95 error_rate.
  unfold on_test_stop, float_getenv, bind, print, emit, ret, result, final, trace.
  rewrite Hp, He.
  destruct exported,
    (float_gt (get_response_time_percentile total (95 # 100)) p95_threshold_ms),
    (float_gt (fail_ratio total) error_rate_threshold);
    simpl;
    (split; [reflexivity|]); (split; [reflexivity|]); (split; [reflexivity|]);
    (split; [intros H; try discriminate H; auto 10|]);
    (split; [intros H; try discriminate H; auto 10|]);
    first
      [ intros [H | H]; discriminate H
      | intros H; split;
        [ simpl; auto 10
        | intros Hin; repeat (destruct Hin as [Hin | Hin]; [discriminate Hin|]);
          exact Hin ] ].
Qed.

End HookClaims.

Lemma on_test_stop_reports_and_returns_witness :
  let r := on_test_stop ∅ float_of_default true slow_total world0 in
  result r = Normal tt /\
  process_exit_code (final r) = None /\
  In (EvPrint (AssertionFailure (P95Exceeded (FNum 1500) (FNum 1000)))) (trace r) /\
  In (EvPrint (AssertionFailure (ErrorRateExceeded (FNum (5 # 100)) (FNum (1 # 100)))))
     (trace r).
Proof.
  destruct (on_test_stop_reports_and_returns ∅ float_of_default true slow_total world0
              (FNum 1000) (FNum (1 # 100)))
    as (Hr & _ & Hx & Hp & He & _).
  - reflexivity.
  - reflexivity.
  - split; [exact Hr|]. split; [exact Hx|].
    split; [exact (Hp eq_refl) | exact (He eq_refl)].
Defined.

(** ** Several users in one run: creation and reuse of the shared key *)

Section RunClaims.

Variable server : nat -> Response.
Variable environ : gmap string string.
Variable hashable_slices : bool.

Ltac run_on_start :=
  unfold start_user, on_start, _create_shared_api_key,
    bind, set_auth, update_header, get_client, set_client, get_shared_api_key,
    get_world, put_world, http, send, receive, print, emit, ret, result, final, trace;
  simpl.

Lemma start_user_with_key fresh w :
  is_None (shared_api_key w) = false ->
  start_user server environ hashable_slices fresh w =
    (Normal tt,
     mkWorld (self w)
       (mkHttpSession (base_url fresh) None
          (<["Authorization" := Bearer (shared_api_key w)]>
             (<["User-Agent" := Plain "Locust-LoadTest/1.0"]> (headers fresh))))
       (shared_api_key w) (process_exit_code w) (served w),
     [EvPrint DebugUsingSharedKey]).
Proof. intros Hk. run_on_start. rewrite Hk. reflexivity. Qed.


Lemma start_users_with_key n : forall fresh w,
  is_None (shared_api_key w) = false ->
  let '(users, w', t) := start_users server environ hashable_slices n fresh w in
  requests_issued t = 0%nat /\
  shared_api_key w' = shared_api_key w /\
  length users = n /\
  Forall (uses_bearer (shared_api_key w)) users.
Proof.
  induction n as [|n IH]; intros fresh w Hk.
  - simpl. repeat split. constructor.
  - cbn [start_users]. rewrite start_user_with_key by assumption.
    specialize (IH fresh
      (mkWorld (self w)
         (mkHttpSession (base_url fresh) None
            (<["Authorization" := Bearer (shared_api_key w)]>
               (<["User-Agent" := Plain "Locust-LoadTest/1.0"]> (headers fresh))))
         (shared_api_key w) (process_exit_code w) (served w)) Hk).
    destruct (start_users server environ hashable_slices n fresh _) as [[users w'] t].
    cbn [shared_api_key client] in *.
    destruct IH as (Hreq & Hkey & Hlen & Hall).
    split; [|split; [|split]].
    + rewrite requests_issued_app, Hreq. reflexivity.
    + exact Hkey.
    + simpl. rewrite Hlen. reflexivity.
    + constructor; [|exact Hall].
      unfold uses_bearer. cbn [fst snd auth headers].
      split; [reflexivity|]. split; [reflexivity|]. apply lookup_insert_eq.
Qed.


(** Run in one go, the two pieces are [on_start]. *)
Lemma on_start_split w :
  on_start server environ hashable_slices w =
    (blocked <- on_start_begin environ ;;
     if blocked then on_start_resume server hashable_slices else ret tt) w.
Proof.
  unfold on_start, on_start_begin, on_start_resume, _create_shared_api_key, http.
  unfold bind, set_auth, update_header, get_client, set_client, get_shared_api_key,
    get_world, put_world, send, receive, print, emit, ret. simpl.
  destruct (is_None (shared_api_key w)); simpl; [|reflexivity].
  destruct (_create_shared_api_key_response _ _ _) as [[r w'] t].
  reflexivity.
Qed.

End RunClaims.



(** Two users that overlap: the second starts while the first is blocked
    in its POST, sees no key, and creates one too; the users end up with
    different tokens. *)
Lemma overlapping_users_create_twice :
  let '(p, t) :=
    interleave issues_keys ∅ false [Begin 0; Begin 1; Deliver 0; Deliver 1]
      (idle_pool 2) in
  requests_issued t = 2%nat /\
  authorization p 0 = Some (Bearer (VStr "sk-first")) /\
  authorization p 1 = Some (Bearer (VStr "sk-second")) /\
  class_key p = VStr "sk-second".
Proof. vm_compute. repeat split. Qed.

(** * Further properties of the scripts *)

(** ** The poll loop against an arbitrary server *)

Lemma sleeps_app t1 t2 : sleeps (t1 ++ t2) = sleeps t1 ++ sleeps t2.
Proof.
  induction t1 as [|e t1 IH]; [reflexivity|].
  destruct e; simpl; rewrite IH; reflexivity.
Qed.

Lemma bind_normal {A B} (m : M A) (k : A -> M B) w a w1 t1 :
  m w = (Normal a, w1, t1) ->
  bind m k w = (let '(r, w2, t2) := k a w1 in (r, w2, t1 ++ t2)).
Proof. intros E. unfold bind. rewrite E. reflexivity. Qed.

Lemma bind_raised {A B} (m : M A) (k : A -> M B) w e w1 t1 :
  m w = (Raised e, w1, t1) ->
  bind m k w = (Raised e, w1, t1).
Proof. intros E. unfold bind. rewrite E. reflexivity. Qed.

Section PollAnyServer.

Variable server : nat -> Response.

Lemma poll_once_pass w : pass server w (poll_once server w).
Proof.
  destruct (Z.eqb_spec (status_code (server (served w))) 200) as [Hc | Hc].
  - destruct (json (server (served w))) as [data|] eqn:Hj.
    + destruct data as [| b | q | s | l | d].
      6:{ destruct (in_strs (default VNone (d !! "status")) terminal_statuses) eqn:Ht.
          - rewrite (poll_once_terminal server w d Hc Hj Ht). constructor; assumption.
          - destruct (in_strs (default VNone (d !! "status")) running_statuses) eqn:Hr.
            + assert (Hrun : is_running (server (served w)) = true).
              { unfold is_running, reported_status. rewrite Hc, Hj. exact Hr. }
              rewrite (poll_once_running server w Hrun). constructor; assumption.
            + rewrite (poll_once_unknown server w d Hc Hj Ht Hr). constructor.
              unfold is_running, reported_status. rewrite Hc, Hj. exact Hr. }
      all: rewrite (poll_once_not_dict server w _ Hc Hj) by (intros d; discriminate);
        constructor; unfold not_an_object; rewrite Hc, Hj; reflexivity.
    + rewrite (poll_once_parse_failure server w Hc Hj). constructor.
      unfold is_running, reported_status. rewrite Hc, Hj. reflexivity.
  - rewrite (poll_once_http_error server w Hc). constructor.
    unfold is_running, reported_status.
    destruct (Z.eqb_spec (status_code (server (served w))) 200); [contradiction|reflexivity].
Qed.

(** The loop, one attempt unrolled. *)
Lemma poll_loop_S n start w :
  poll_loop server (S n) start w =
    match poll_once server w with
    | (Normal Continue, w1, t1) =>
        let '(f, w2, t2) := poll_loop server n (next_interval start) w1 in
        (f, w2, t1 ++ EvSleep start :: t2)
    | (Normal Return, w1, t1) => (Normal Return, w1, t1)
    | (Raised e, w1, t1) => (Raised e, w1, t1)
    end.
Proof.
  cbn [poll_loop]. unfold bind at 1.
  destruct (poll_once server w) as [[[[|]|e] w1] t1].
  - unfold bind, sleep, emit.
    destruct (poll_loop server n (next_interval start) w1) as [[f w2] t2]. reflexivity.
  - unfold ret. rewrite app_nil_r. reflexivity.
  - reflexivity.
Qed.

(** Every run of the loop is some rounds, then either nothing (all
    attempts used) or one last pass that did not fall through. *)
Lemma poll_loop_shape n : forall start w,
  exists k,
    (k <= n)%nat /\
    (forall j, (j < k)%nat -> is_running (server (j + served w)) = true) /\
    ((k = n /\
      poll_loop server n start w =
        (Normal Continue, answered n w, rounds (batch_id (self w)) n start)) \/
     ((k < n)%nat /\
      exists f w' t,
        pass server (answered k w) (f, w', t) /\
        f <> Normal Continue /\
        poll_loop server n start w =
          (f, w', rounds (batch_id (self w)) k start ++ t))).
Proof.
  induction n as [|n IH]; intros start w.
  - exists 0%nat. split; [lia|]. split; [intros j Hlt0; lia|]. left.
    split; [reflexivity|]. simpl. rewrite answered_0. reflexivity.
  - rewrite poll_loop_S. pose proof (poll_once_pass w) as Hp.
    destruct (poll_once server w) as [[f w1] t1] eqn:Hone.
    inversion Hp as [Hrun | d Hc Hj Ht | msg Hrun | Hobj]; subst.
    + destruct (IH (next_interval start) (answered 1 w))
        as (k & Hk & Hruns & [[-> Hloop] | (Hlt & f & w' & t & Hpass & Hf & Hloop)]).
      * exists (S n). split; [lia|]. split.
        { intros [|j] Hj; [exact Hrun|].
          specialize (Hruns j ltac:(lia)). rewrite served_answered in Hruns.
          replace (S j + served w)%nat with (j + (1 + served w))%nat by lia.
          exact Hruns. }
        left. split; [reflexivity|]. rewrite Hloop, answered_answered.
        replace (n + 1)%nat with (S n) by lia. reflexivity.
      * exists (S k). split; [lia|]. split.
        { intros [|j] Hj; [exact Hrun|].
          specialize (Hruns j ltac:(lia)). rewrite served_answered in Hruns.
          replace (S j + served w)%nat with (j + (1 + served w))%nat by lia.
          exact Hruns. }
        right. split; [lia|]. exists f, w', t.
        rewrite answered_answered in Hpass.
        replace (k + 1)%nat with (S k) in Hpass by lia.
        split; [exact Hpass|]. split; [exact Hf|]. rewrite Hloop. reflexivity.
    + exists 0%nat. split; [lia|]. split; [intros j Hlt0; lia|]. right.
      split; [lia|]. eexists _, _, _. rewrite answered_0.
      split; [exact Hp|]. split; [discriminate | reflexivity].
    + exists 0%nat. split; [lia|]. split; [intros j Hlt0; lia|]. right.
      split; [lia|]. eexists _, _, _. rewrite answered_0.
      split; [exact Hp|]. split; [discriminate | reflexivity].
    + exists 0%nat. split; [lia|]. split; [intros j Hlt0; lia|]. right.
      split; [lia|]. eexists _, _, _. rewrite answered_0.
      split; [exact Hp|]. split; [discriminate | reflexivity].
Qed.

(** The same for the step. *)
Lemma poll_batch_status_shape w :
  truthy (batch_id (self w)) = true ->
  exists k,
    (k <= 60)%nat /\
    (forall j, (j < k)%nat -> is_running (server (j + served w)) = true) /\
    ((k = 60%nat /\
      poll_batch_status server w =
        (Normal tt, answered 60 w,
         rounds (batch_id (self w)) 60 2
           ++ [EvPrint (DidNotComplete (batch_id (self w)) 60)])) \/
     ((k < 60)%nat /\
      exists f w' t,
        pass server (answered k w) (f, w', t) /\
        f <> Normal Continue /\
        poll_batch_status server w =
          (step_result f, w', rounds (batch_id (self w)) k 2 ++ t))).
Proof.
  intros Hid.
  destruct (poll_loop_shape max_polls 2 w)
    as (k & Hk & Hruns & [[-> Hloop] | (Hlt & f & w' & t & Hpass & Hf & Hloop)]).
  - exists 60%nat. split; [lia|]. split; [exact Hruns|]. left. split; [reflexivity|].
    rewrite poll_batch_status_polls, Hloop by assumption. reflexivity.
  - exists k. split; [exact Hk|]. split; [exact Hruns|]. right. split; [exact Hlt|].
    exists f, w', t. split; [exact Hpass|]. split; [exact Hf|].
    rewrite poll_batch_status_polls, Hloop by assumption.
    destruct f as [[|]|e]; [contradiction | reflexivity | reflexivity].
Qed.

End PollAnyServer.

Lemma sleeps_rounds_lookup id k : forall start j q,
  sleeps (rounds id k start) !! j = Some q ->
  (j < k)%nat /\ q = Nat.iter j next_interval start.
Proof.
  induction k as [|k IH]; intros start j q H; [discriminate|].
  cbn [rounds sleeps] in H. destruct j as [|j].
  - injection H as <-. split; [lia | reflexivity].
  - cbn [lookup list_lookup] in H. apply IH in H as [Hj ->].
    split; [lia|]. rewrite Nat.iter_succ_r. reflexivity.
Qed.

Lemma total_sleep_rounds id k : forall start,
  total_sleep (rounds id k start) = sleep_budget k start.
Proof.
  induction k as [|k IH]; intros start; [reflexivity|].
  unfold total_sleep in *. cbn [rounds sleeps fold_right sleep_budget].
  rewrite IH. reflexivity.
Qed.

Lemma total_sleep_app_quiet t1 t2 :
  sleeps t2 = [] -> total_sleep (t1 ++ t2) = total_sleep t1.
Proof.
  intros H. unfold total_sleep. rewrite sleeps_app, H, app_nil_r. reflexivity.
Qed.

Lemma next_interval_range (x : Q) :
  (2 <= x <= 30)%Q -> (2 <= next_interval x <= 30)%Q /\ (x <= next_interval x)%Q.
Proof.
  intros [Hlo Hhi]. unfold next_interval.
  destruct (Q.min_spec (x * (3 # 2)) 30) as [[H E] | [H E]]; rewrite E; lra.
Qed.

Lemma interval_range (i : nat) : (2 <= interval i <= 30)%Q.
Proof.
  induction i as [|i IH]; [unfold interval; simpl; lra|].
  unfold interval in *. cbn [Nat.iter]. apply next_interval_range, IH.
Qed.

Lemma sleep_budget_grows k : forall n start,
  (2 <= start <= 30)%Q -> (k <= n)%nat ->
  (0 <= sleep_budget k start <= sleep_budget n start)%Q.
Proof.
  induction k as [|k IH]; intros n start Hs Hk.
  - cbn [sleep_budget]. split; [lra|]. clear Hk. revert start Hs.
    induction n as [|n IHn]; intros start Hs; cbn [sleep_budget]; [lra|].
    specialize (IHn (next_interval start) (proj1 (next_interval_range start Hs))). lra.
  - destruct n as [|n]; [lia|]. cbn [sleep_budget].
    destruct (IH n (next_interval start)
                (proj1 (next_interval_range start Hs)) ltac:(lia)). lra.
Qed.

Section PollExtras.

Variable server : nat -> Response.

(** X1.  Every run of the poll step that passes its guard is [k <= 60]
    rounds (status request, success mark, sleep) followed by the closing
    log line when [k = 60], and otherwise by one last status request with
    its verdict: a success mark, one failure, or nothing at all when the
    body made the step raise.  Nothing follows the verdict. *)
Theorem poll_run_shape w :
  truthy (batch_id (self w)) = true ->
  let request := EvRequest GET (UrlBatch (batch_id (self w))) NoPayload poll_name in
  exists k stop,
    (k <= 60)%nat /\
    trace (poll_batch_status server w) = rounds (batch_id (self w)) k 2 ++ stop /\
    ((k = 60%nat /\ stop = [EvPrint (DidNotComplete (batch_id (self w)) 60)]) \/
     ((k < 60)%nat /\
      (stop = [request; EvSuccess poll_name] \/
       (exists msg, stop = [request; EvFailure poll_name msg]) \/
       stop = [request]))).
Proof.
  intros Hid request. subst request.
  destruct (poll_batch_status_shape server w Hid)
    as (k & Hk & _ & [[-> Hrun] | (Hlt & f & w' & t & Hpass & Hf & Hrun)]).
  - eexists 60%nat, _. split; [lia|]. rewrite Hrun. split; [reflexivity|].
    left. split; reflexivity.
  - exists k, t. split; [exact Hk|]. rewrite Hrun. split; [reflexivity|].
    right. split; [exact Hlt|].
    inversion Hpass; subst; rewrite ?self_answered;
      [ exfalso; apply Hf; reflexivity
      | left; reflexivity
      | right; left; eexists; reflexivity
      | right; right; reflexivity ].
Qed.

(** X2.  Whatever the server answers, the [j]-th sleep of a poll step lasts
    the [j]-th value of the backoff sequence, [min (2 * 1.5^j) 30] seconds,
    which lies between 2 and 30; and there is no sleep numbered 60 or
    more. *)
Theorem poll_sleep_schedule w j q :
  sleeps (trace (poll_batch_status server w)) !! j = Some q ->
  q = interval j /\
  (q == Qmin (2 * (3 # 2) ^ Z.of_nat j) 30)%Q /\
  (2 <= q <= 30)%Q /\
  (j < 60)%nat.
Proof.
  intros Hq.
  assert (H : q = interval j /\ (j < 60)%nat).
  { destruct (truthy (batch_id (self w))) eqn:Hid.
    - destruct (poll_batch_status_shape server w Hid)
        as (k & Hk & _ & [[-> Hrun] | (Hlt & f & w' & t & Hpass & Hf & Hrun)]);
        rewrite Hrun in Hq; unfold trace in Hq; cbn [snd] in Hq;
        rewrite sleeps_app in Hq.
      + change (sleeps [EvPrint _]) with (@nil Q) in Hq. rewrite app_nil_r in Hq.
        apply sleeps_rounds_lookup in Hq as [Hj ->]. split; [reflexivity | lia].
      + assert (Ht : sleeps t = []) by (inversion Hpass; reflexivity).
        rewrite Ht, app_nil_r in Hq.
        apply sleeps_rounds_lookup in Hq as [Hj ->]. split; [reflexivity | lia].
    - rewrite poll_batch_status_interrupts in Hq by assumption. discriminate. }
  destruct H as [-> Hj].
  split; [reflexivity|]. split; [apply interval_closed|].
  split; [apply interval_range | exact Hj].
Qed.

End PollExtras.

(** X3.  The backoff sequence never shrinks, stays below the cap for the
    first seven sleeps and is the cap, 30 seconds, from the eighth on. *)
Theorem interval_saturates :
  (forall i, (interval i <= interval (S i))%Q) /\
  (forall i, (i < 7)%nat -> (interval i < 30)%Q) /\
  (forall i, (7 <= i)%nat -> (interval i == 30)%Q).
Proof.
  split; [|split].
  - intros i. unfold interval. cbn [Nat.iter].
    apply next_interval_range, interval_range.
  - intros i Hi.
    do 7 (destruct i as [|i]; [vm_compute; reflexivity|]). lia.
  - intros i Hi. induction Hi as [|n Hn IH]; [vm_compute; reflexivity|].
    change (interval (S n)) with (next_interval (interval n)).
    transitivity (next_interval 30); [apply next_interval_compat, IH|].
    vm_compute. reflexivity.
Qed.

Lemma sleep_budget_60 : (sleep_budget 60 2 == 52939 # 32)%Q.
Proof. vm_compute. reflexivity. Qed.

Section PollBounds.

Variable server : nat -> Response.

(** X4.  A poll step never sleeps more than 1654.34375 seconds in all
    (52939/32, about 27.6 minutes), and sleeps exactly that long when all
    60 attempts find the batch running. *)
Theorem poll_total_sleep_bound w :
  let t := trace (poll_batch_status server w) in
  (total_sleep t <= 52939 # 32)%Q /\
  (truthy (batch_id (self w)) = true ->
   (forall j, (j < 60)%nat -> is_running (server (j + served w)) = true) ->
   (total_sleep t == 52939 # 32)%Q).
Proof.
  intros t; subst t. split.
  - destruct (truthy (batch_id (self w))) eqn:Hid.
    + destruct (poll_batch_status_shape server w Hid)
        as (k & Hk & _ & [[-> Hrun] | (Hlt & f & w' & t & Hpass & Hf & Hrun)]);
        rewrite Hrun; unfold trace; cbn [snd].
      * rewrite total_sleep_app_quiet by reflexivity.
        rewrite total_sleep_rounds, sleep_budget_60. apply Qle_refl.
      * rewrite total_sleep_app_quiet by (inversion Hpass; reflexivity).
        rewrite total_sleep_rounds, <- sleep_budget_60.
        apply sleep_budget_grows; [lra | lia].
    + rewrite poll_batch_status_interrupts by assumption. vm_compute. discriminate.
  - intros Hid Hrun.
    rewrite poll_batch_status_exhausted by assumption.
    unfold trace; cbn [snd]. rewrite total_sleep_app_quiet by reflexivity.
    rewrite total_sleep_rounds. apply sleep_budget_60.
Qed.

(** X5.  Whatever the server answers, the poll step leaves the session,
    the shared key, the exit code, the fixture data, [file_id] and
    [batch_id] as they were; and [output_file_id] and [error_file_id]
    differ from before only when the last response it read was a 200 with
    a terminal status, whose two entries they then hold. *)
Theorem poll_frame w :
  let r := poll_batch_status server w in
  untouched w (final r) /\
  file_id (self (final r)) = file_id (self w) /\
  batch_id (self (final r)) = batch_id (self w) /\
  ((output_file_id (self (final r)) = output_file_id (self w) /\
    error_file_id (self (final r)) = error_file_id (self w)) \/
   exists d,
     status_code (server (served (final r) - 1)) = 200 /\
     json (server (served (final r) - 1)) = Some (VDict d) /\
     in_strs (default VNone (d !! "status")) terminal_statuses = true /\
     output_file_id (self (final r)) = default VNone (d !! "output_file_id") /\
     error_file_id (self (final r)) = default VNone (d !! "error_file_id")).
Proof.
  intros r; subst r. unfold untouched.
  destruct (truthy (batch_id (self w))) eqn:Hid.
  - destruct (poll_batch_status_shape server w Hid)
      as (k & Hk & _ & [[-> Hrun] | (Hlt & f & w' & t & Hpass & Hf & Hrun)]);
      rewrite Hrun; unfold final; cbn [fst snd].
    + repeat split. left. split; reflexivity.
    + inversion Hpass as [Hr | d Hc Hj Ht | msg Hr | Hobj]; subst;
        try (repeat split; left; split; reflexivity).
      repeat split. right. exists d.
      cbn [served with_results answered].
      replace (1 + (k + served w) - 1)%nat with (k + served w)%nat by lia.
      repeat split; assumption.
  - rewrite poll_batch_status_interrupts by assumption.
    repeat split. left. split; reflexivity.
Qed.

(** A pass that raises at attempt [i] makes the step raise, right there. *)
Lemma poll_batch_status_raises_at i w e w1 t1 :
  truthy (batch_id (self w)) = true ->
  (i < max_polls)%nat ->
  (forall j, (j < i)%nat -> is_running (server (j + served w)) = true) ->
  poll_once server (answered i w) = (Raised e, w1, t1) ->
  poll_batch_status server w =
    (Raised e, w1, rounds (batch_id (self w)) i 2 ++ t1).
Proof.
  intros Hid Hi Hrun Honce.
  rewrite poll_batch_status_polls by assumption.
  rewrite (poll_loop_reaches server i) by assumption.
  rewrite Honce. reflexivity.
Qed.

(** X6.  A poll response that is not HTTP 200 (a 201 included), or whose
    body is not JSON, records one failure, naming the status code or the
    parse error, and ends the step with that request as the last one. *)
Theorem poll_error_response_fails w i :
  truthy (batch_id (self w)) = true ->
  (i < max_polls)%nat ->
  (forall j, (j < i)%nat -> is_running (server (j + served w)) = true) ->
  let response := server (i + served w) in
  http_error response = true \/ parse_failure response = true ->
  let r := poll_batch_status server w in
  result r = Normal tt /\
  trace r = rounds (batch_id (self w)) i 2
              ++ [EvRequest GET (UrlBatch (batch_id (self w))) NoPayload poll_name;
                  EvFailure poll_name
                    (if http_error response then PollFailed (status_code response)
                     else PollParseFailed)] /\
  failures_recorded (trace r) = 1%nat /\
  requests_issued (trace r) = S i.
Proof.
  intros Hid Hi Hrun response Hcase r. subst response r.
  assert (Hrun1 : exists msg,
    msg = (if http_error (server (i + served w))
           then PollFailed (status_code (server (i + served w)))
           else PollParseFailed) /\
    poll_once server (answered i w) =
      (Normal Return, answered 1 (answered i w),
       [EvRequest GET (UrlBatch (batch_id (self w))) NoPayload poll_name;
        EvFailure poll_name msg])).
  { eexists; split; [reflexivity|].
    destruct (http_error (server (i + served w))) eqn:Hh.
    - unfold http_error in Hh. apply negb_true_iff, Z.eqb_neq in Hh.
      apply (poll_once_http_error server (answered i w) Hh).
    - destruct Hcase as [Hcase | Hcase]; [discriminate|].
      unfold parse_failure in Hcase. apply andb_true_iff in Hcase as [Hc Hj].
      apply Z.eqb_eq in Hc. destruct (json _) eqn:E in Hj; [discriminate|].
      apply (poll_once_parse_failure server (answered i w) Hc E). }
  destruct Hrun1 as (msg & -> & Honce).
  rewrite (poll_batch_status_returns_at server i w _ _ Hid Hi Hrun Honce).
  unfold result, trace; cbn [fst snd].
  split; [reflexivity|]. split; [reflexivity|]. split.
  - rewrite failures_recorded_app, failures_recorded_rounds. reflexivity.
  - rewrite requests_issued_app, requests_issued_rounds. simpl. lia.
Qed.

(** X7.  A poll response with HTTP 200 whose body is JSON but not an object
    (a list, a string, a number, [null]) makes the step raise
    [AttributeError]: the request is the last event, the response is marked
    neither success nor failure, and the result identifiers are
    unchanged. *)
Theorem poll_not_an_object_raises w i :
  truthy (batch_id (self w)) = true ->
  (i < max_polls)%nat ->
  (forall j, (j < i)%nat -> is_running (server (j + served w)) = true) ->
  not_an_object (server (i + served w)) = true ->
  let r := poll_batch_status server w in
  result r = Raised AttributeError /\
  trace r = rounds (batch_id (self w)) i 2
              ++ [EvRequest GET (UrlBatch (batch_id (self w))) NoPayload poll_name] /\
  failures_recorded (trace r) = 0%nat /\
  output_file_id (self (final r)) = output_file_id (self w) /\
  error_file_id (self (final r)) = error_file_id (self w).
Proof.
  intros Hid Hi Hrun Hobj r. subst r.
  unfold not_an_object in Hobj. apply andb_true_iff in Hobj as [Hc Hj].
  apply Z.eqb_eq in Hc.
  destruct (json (server (i + served w))) as [data|] eqn:E; [|discriminate].
  assert (Hd : forall d, data <> VDict d) by (intros d ->; discriminate).
  rewrite (poll_batch_status_raises_at i w _ _ _ Hid Hi Hrun
             (poll_once_not_dict server (answered i w) data Hc E Hd)).
  unfold result, final, trace; cbn [fst snd].
  split; [reflexivity|]. split; [reflexivity|]. split; [|split; reflexivity].
  rewrite failures_recorded_app, failures_recorded_rounds. reflexivity.
Qed.

End PollBounds.

(** ** The single-request steps against an arbitrary server *)

Section StepExtras.

Variable server : nat -> Response.

Ltac run_any_step :=
  unfold upload_file, verify_upload, create_batch, retrieve_output,
    retrieve_errors, bind, get_self, get_client, get_world,
    http, send, receive, ret, dict_get, set_file_id, set_batch_id, set_self, put_world,
    success, failure, print, emit, raise, interrupt, result, final, trace,
    requests_of, untouched;
  simpl.

(** Splits on every test the step makes on the response. *)
Ltac split_response w :=
  try destruct (resp_headers (server (served w)) !! "allow");
  try destruct (created (server (served w)));
  try destruct (status_code (server (served w)) =? 200);
  try destruct (json (server (served w))) as [[| | | | |?d]|];
  simpl;
  try match goal with
      | |- context [truthy (default VNone (?d !! "id"))] =>
          destruct (truthy (default VNone (d !! "id")))
      end;
  simpl.

Lemma upload_file_requests w :
  requests_of (trace (upload_file server w)) =
    [EvRequest POST UrlFiles (UploadForm (test_data (self w))) "/ai/v1/files [upload]"].
Proof. run_any_step. split_response w; reflexivity. Qed.

(** X8.  No step other than the poll retries: whatever the response, the
    upload issues exactly one request, and verify, create-batch and the two
    retrievals issue exactly one when their identifier is set and none
    otherwise. *)
Theorem steps_never_retry w (rnd : Q) :
  requests_issued (trace (upload_file server w)) = 1%nat /\
  requests_issued (trace (verify_upload server rnd w))
    = (if truthy (file_id (self w)) then 1 else 0)%nat /\
  requests_issued (trace (create_batch server w))
    = (if truthy (file_id (self w)) then 1 else 0)%nat /\
  requests_issued (trace (retrieve_output server w))
    = (if truthy (output_file_id (self w)) then 1 else 0)%nat /\
  requests_issued (trace (retrieve_errors server w))
    = (if truthy (error_file_id (self w)) then 1 else 0)%nat.
Proof.
  split; [|split; [|split; [|split]]].
  - run_any_step. split_response w; reflexivity.
  - run_any_step. destruct (truthy (file_id (self w))); [|reflexivity]. simpl.
    destruct (Qlt_le_dec rnd (1 # 2)); simpl; split_response w; reflexivity.
  - run_any_step. destruct (truthy (file_id (self w))); [|reflexivity]. simpl.
    split_response w; reflexivity.
  - run_any_step. destruct (truthy (output_file_id (self w))); [|reflexivity]. simpl.
    split_response w; reflexivity.
  - run_any_step. destruct (truthy (error_file_id (self w))); [|reflexivity]. simpl.
    split_response w; reflexivity.
Qed.

(** X9.  The upload step marks its response a success only when it has
    stored a file identifier that passes the guard of the later steps; when
    it returns it has marked the response exactly once; and when it raises,
    the exception is [AttributeError] and the response is not marked at
    all. *)
Theorem upload_file_verdict w :
  let r := upload_file server w in
  (successes_recorded (trace r) = 1%nat -> truthy (file_id (self (final r))) = true) /\
  (result r = Normal tt ->
   (successes_recorded (trace r) + failures_recorded (trace r) = 1)%nat) /\
  (forall e, result r = Raised e ->
   e = AttributeError /\
   (successes_recorded (trace r) + failures_recorded (trace r) = 0)%nat).
Proof.
  run_any_step.
  destruct (resp_headers (server (served w)) !! "allow"); simpl;
    (destruct (created (server (served w))); simpl;
     [ destruct (json (server (served w))) as [[| | | | |d]|]; simpl;
       try (destruct (truthy (default VNone (d !! "id"))) eqn:Hid; simpl)
     | ]);
    (split; [intros H; try discriminate H; try assumption
            | split; [intros H; try discriminate H; reflexivity
                     | intros e H; try discriminate H;
                       injection H as <-; split; reflexivity ]]).
Qed.

End StepExtras.

Section StepErrors.

Variable server : nat -> Response.

Ltac run_any_step :=
  unfold upload_file, verify_upload, create_batch, retrieve_output,
    retrieve_errors, bind, get_self, get_client, get_world,
    http, send, receive, ret, dict_get, set_file_id, set_batch_id, set_self, put_world,
    success, failure, print, emit, raise, interrupt, result, final, trace,
    requests_of, untouched;
  simpl.

(** X10.  A success status with a body that is not JSON: the upload and
    the create-batch step are marked failed and leave their identifier as
    it was. *)
Theorem unparseable_body_fails w :
  created (server (served w)) = true ->
  json (server (served w)) = None ->
  (let r := upload_file server w in
   result r = Normal tt /\ marked_failed (trace r) /\
   file_id (self (final r)) = file_id (self w)) /\
  (truthy (file_id (self w)) = true ->
   let r := create_batch server w in
   result r = Normal tt /\ marked_failed (trace r) /\
   batch_id (self (final r)) = batch_id (self w)).
Proof.
  intros Hc Hj. split.
  - run_any_step.
    destruct (resp_headers (server (served w)) !! "allow"); simpl;
      rewrite Hc, Hj; repeat split.
  - intros Hf. run_any_step. rewrite Hf. simpl. rewrite Hc, Hj. repeat split.
Qed.

(** X11.  A success status with a body that is JSON but not an object: the
    upload and the create-batch step raise [AttributeError] after their one
    request, mark the response neither success nor failure, and leave their
    identifier as it was. *)
Theorem non_object_body_raises w data :
  created (server (served w)) = true ->
  json (server (served w)) = Some data ->
  (forall d, data <> VDict d) ->
  (let r := upload_file server w in
   result r = Raised AttributeError /\
   successes_recorded (trace r) = 0%nat /\ failures_recorded (trace r) = 0%nat /\
   requests_issued (trace r) = 1%nat /\
   file_id (self (final r)) = file_id (self w)) /\
  (truthy (file_id (self w)) = true ->
   let r := create_batch server w in
   result r = Raised AttributeError /\
   successes_recorded (trace r) = 0%nat /\ failures_recorded (trace r) = 0%nat /\
   requests_issued (trace r) = 1%nat /\
   batch_id (self (final r)) = batch_id (self w)).
Proof.
  intros Hc Hj Hd.
  assert (Hget : forall key, dict_get data key = raise AttributeError).
  { intros key. destruct data; try reflexivity. exfalso. eapply Hd. reflexivity. }
  split.
  - unfold upload_file, bind at 1 2 3 4 5 6 7 8 9, get_self, get_client, get_world,
      http, send, receive, ret, print, emit, bind. simpl.
    destruct (resp_headers (server (served w)) !! "allow"); simpl;
      rewrite Hc, Hj, Hget; repeat split.
  - intros Hf. unfold create_batch, bind, get_self, get_world, http, send, receive,
      ret, emit, interrupt. simpl. rewrite Hf. simpl. rewrite Hc, Hj, Hget.
    repeat split.
Qed.

(** X12.  The three GET steps judge by the status code alone.  With its
    identifier set, each of verify, retrieve-output and retrieve-errors is
    marked a success when the status is 200 and failed for any other
    status, and changes nothing but the count of answered calls. *)
Theorem get_steps_judge_by_status w (rnd : Q) :
  let verdict (t : list event) :=
    if status_code (server (served w)) =? 200
    then marked_success t else marked_failed t in
  (truthy (file_id (self w)) = true ->
   let r := verify_upload server rnd w in
   result r = Normal tt /\ final r = answered 1 w /\ verdict (trace r)) /\
  (truthy (output_file_id (self w)) = true ->
   let r := retrieve_output server w in
   result r = Normal tt /\ final r = answered 1 w /\ verdict (trace r)) /\
  (truthy (error_file_id (self w)) = true ->
   let r := retrieve_errors server w in
   result r = Normal tt /\ final r = answered 1 w /\ verdict (trace r)).
Proof.
  cbv zeta. split; [|split]; intros Hid; run_any_step; rewrite Hid; simpl.
  - destruct (Qlt_le_dec rnd (1 # 2)); simpl;
      destruct (status_code (server (served w)) =? 200); repeat split.
  - destruct (status_code (server (served w)) =? 200); repeat split.
  - destruct (status_code (server (served w)) =? 200); repeat split.
Qed.

(** X13.  Whatever the response, no single-request step writes to the
    session, the shared key, the exit code or the fixture data; the upload
    writes no identifier but [file_id], create-batch none but [batch_id],
    and verify and the two retrievals write none. *)
Theorem steps_frame w (rnd : Q) :
  (let w' := final (upload_file server w) in
   untouched w w' /\ batch_id (self w') = batch_id (self w) /\
   output_file_id (self w') = output_file_id (self w) /\
   error_file_id (self w') = error_file_id (self w)) /\
  (let w' := final (create_batch server w) in
   untouched w w' /\ file_id (self w') = file_id (self w) /\
   output_file_id (self w') = output_file_id (self w) /\
   error_file_id (self w') = error_file_id (self w)) /\
  self (final (verify_upload server rnd w)) = self w /\
  untouched w (final (verify_upload server rnd w)) /\
  self (final (retrieve_output server w)) = self w /\
  untouched w (final (retrieve_output server w)) /\
  self (final (retrieve_errors server w)) = self w /\
  untouched w (final (retrieve_errors server w)).
Proof.
  cbv zeta. repeat apply conj.
  all: run_any_step.
  all: try destruct (truthy (file_id (self w))); simpl.
  all: try destruct (truthy (output_file_id (self w))); simpl.
  all: try destruct (truthy (error_file_id (self w))); simpl.
  all: try destruct (Qlt_le_dec rnd (1 # 2)); simpl.
  all: try destruct (resp_headers (server (served w)) !! "allow"); simpl.
  all: try destruct (created (server (served w))); simpl.
  all: try destruct (status_code (server (served w)) =? 200); simpl.
  all: try destruct (json (server (served w))) as [[| | | | |d]|]; simpl.
  all: try destruct (truthy (default VNone (d !! "id"))); simpl.
  all: try reflexivity.
  all: destruct w as [[] ? ? ? ?]; reflexivity.
Qed.

End StepErrors.

(** ** Steps in sequence *)

Lemma run_eq {A} (r : outcome A * World * list event) a w1 :
  result r = a -> final r = w1 -> r = (a, w1, trace r).
Proof. destruct r as [[a' w'] t]. unfold result, final, trace; simpl. congruence. Qed.

Section StepRuns.

Variable server : nat -> Response.

Ltac run_a_step :=
  unfold upload_file, verify_upload, create_batch, retrieve_output,
    retrieve_errors, bind, get_self, get_client, get_world,
    http, send, receive, ret, dict_get, set_file_id, set_batch_id, set_self, put_world,
    success, failure, print, emit, raise, interrupt, result, final, trace;
  simpl.

Lemma upload_file_stores w d :
  created (server (served w)) = true ->
  json (server (served w)) = Some (VDict d) ->
  let r := upload_file server w in
  result r = Normal tt /\
  final r = with_file_id (default VNone (d !! "id")) (answered 1 w) /\
  requests_issued (trace r) = 1%nat /\
  failures_recorded (trace r)
    = (if truthy (default VNone (d !! "id")) then 0 else 1)%nat.
Proof.
  intros Hc Hj. run_a_step.
  destruct (resp_headers (server (served w)) !! "allow"); simpl;
    rewrite Hc, Hj; simpl;
    destruct (truthy (default VNone (d !! "id"))); repeat split.
Qed.

Lemma upload_file_refused w :
  created (server (served w)) = false ->
  let r := upload_file server w in
  result r = Normal tt /\
  final r = answered 1 w /\
  requests_issued (trace r) = 1%nat /\
  failures_recorded (trace r) = 1%nat.
Proof.
  intros Hc. run_a_step.
  destruct (resp_headers (server (served w)) !! "allow"); simpl;
    rewrite Hc; repeat split.
Qed.

Lemma verify_upload_runs w rnd :
  truthy (file_id (self w)) = true ->
  let r := verify_upload server rnd w in
  result r = Normal tt /\
  final r = answered 1 w /\
  requests_issued (trace r) = 1%nat /\
  failures_recorded (trace r)
    = (if (status_code (server (served w)) =? 200)%Z then 0 else 1)%nat.
Proof.
  intros Hid. run_a_step. rewrite Hid. simpl.
  destruct (Qlt_le_dec rnd (1 # 2)); simpl;
    destruct (status_code (server (served w)) =? 200); repeat split.
Qed.

Lemma create_batch_stores w d :
  truthy (file_id (self w)) = true ->
  created (server (served w)) = true ->
  json (server (served w)) = Some (VDict d) ->
  create_batch server w =
    (Normal tt, with_batch_id (default VNone (d !! "id")) (answered 1 w),
     [EvRequest POST UrlBatches (BatchJson (file_id (self w))) "/ai/v1/batches [create]";
      EvSuccess "/ai/v1/batches [create]"]).
Proof.
  intros Hid Hc Hj. run_a_step. rewrite Hid. simpl. rewrite Hc, Hj. reflexivity.
Qed.

Lemma retrieve_output_runs w :
  truthy (output_file_id (self w)) = true ->
  retrieve_output server w =
    (Normal tt, answered 1 w,
     [EvRequest GET (UrlFileContent (output_file_id (self w))) NoPayload
        "/ai/v1/files/{output_file_id}/content [output]";
      if status_code (server (served w)) =? 200
      then EvSuccess "/ai/v1/files/{output_file_id}/content [output]"
      else EvFailure "/ai/v1/files/{output_file_id}/content [output]"
             (OutputFailed (status_code (server (served w))))]).
Proof.
  intros Hid. run_a_step. rewrite Hid. simpl.
  destruct (status_code (server (served w)) =? 200); reflexivity.
Qed.

Lemma retrieve_errors_skips w :
  truthy (error_file_id (self w)) = false ->
  retrieve_errors server w = (Normal tt, w, []).
Proof. intros Hid. run_a_step. rewrite Hid. reflexivity. Qed.

Lemma verify_upload_interrupts w rnd :
  truthy (file_id (self w)) = false ->
  verify_upload server rnd w = (Raised InterruptTaskSet, w, []).
Proof. intros Hid. run_a_step. rewrite Hid. reflexivity. Qed.

End StepRuns.

Section Passes.

Variable server : nat -> Response.

(** X14.  A pass in which everything goes well: the upload and the batch
    creation return identifiers, verify gets a 200, the poll finds the
    batch running [i] times and then in a terminal status that names an
    output file and no error file, and the output download gets a 200.
    The pass issues [5 + i] requests, records no failure, skips the error
    download, and ends with the three identifiers of the responses
    stored. *)
Theorem clean_pass w (rnd : Q) i d1 d2 d3 :
  let k := served w in
  created (server k) = true ->
  json (server k) = Some (VDict d1) ->
  truthy (default VNone (d1 !! "id")) = true ->
  status_code (server (1 + k)) = 200 ->
  created (server (2 + k)) = true ->
  json (server (2 + k)) = Some (VDict d2) ->
  truthy (default VNone (d2 !! "id")) = true ->
  (i < max_polls)%nat ->
  (forall j, (j < i)%nat -> is_running (server (j + (3 + k))) = true) ->
  status_code (server (i + (3 + k))) = 200 ->
  json (server (i + (3 + k))) = Some (VDict d3) ->
  in_strs (default VNone (d3 !! "status")) terminal_statuses = true ->
  truthy (default VNone (d3 !! "output_file_id")) = true ->
  truthy (default VNone (d3 !! "error_file_id")) = false ->
  status_code (server (4 + i + k)) = 200 ->
  let r := one_pass server rnd w in
  result r = Normal tt /\
  requests_issued (trace r) = (5 + i)%nat /\
  failures_recorded (trace r) = 0%nat /\
  served (final r) = (5 + i + k)%nat /\
  file_id (self (final r)) = default VNone (d1 !! "id") /\
  batch_id (self (final r)) = default VNone (d2 !! "id") /\
  output_file_id (self (final r)) = default VNone (d3 !! "output_file_id") /\
  error_file_id (self (final r)) = default VNone (d3 !! "error_file_id").
Proof.
  intros k Hc1 Hj1 Hid1 Hc2 Hc3 Hj3 Hid3 Hi Hrun Hc4 Hj4 Hterm Hout Herr Hc5 r.
  subst r k. unfold one_pass.
  (* upload *)
  destruct (upload_file_stores server w d1 Hc1 Hj1) as (Hr1 & Hf1 & Hq1 & Hx1).
  rewrite Hid1 in Hx1.
  rewrite (bind_normal _ _ w tt _ _ (run_eq _ _ _ Hr1 Hf1)).
  set (t1 := trace (upload_file server w)) in *.
  set (w1 := with_file_id (default VNone (d1 !! "id")) (answered 1 w)).
  (* verify *)
  destruct (verify_upload_runs server w1 rnd Hid1) as (Hr2 & Hf2 & Hq2 & Hx2).
  change (served w1) with (1 + served w)%nat in Hx2. rewrite Hc2 in Hx2.
  rewrite (bind_normal _ _ w1 tt _ _ (run_eq _ _ _ Hr2 Hf2)).
  set (t2 := trace (verify_upload server rnd w1)) in *.
  set (w2 := answered 1 w1).
  (* create *)
  rewrite (bind_normal _ _ w2 tt _ _ (create_batch_stores server w2 d2 Hid1 Hc3 Hj3)).
  set (w3 := with_batch_id (default VNone (d2 !! "id")) (answered 1 w2)).
  (* poll *)
  rewrite (bind_normal _ _ w3 tt _ _
             (poll_batch_status_returns_at server i w3 _ _ Hid3 Hi Hrun
                (poll_once_terminal server (answered i w3) d3 Hc4 Hj4 Hterm))).
  set (w4 := with_results _ _ (answered 1 (answered i w3))).
  (* the downloads *)
  rewrite (bind_normal _ _ w4 tt _ _ (retrieve_output_runs server w4 Hout)).
  rewrite (retrieve_errors_skips server (answered 1 w4) Herr).
  replace (served w4) with (4 + i + served w)%nat by (simpl; lia).
  rewrite Hc5.
  unfold result, final, trace; cbn [fst snd].
  split; [reflexivity|]. split; [|split; [|split]].
  - rewrite !requests_issued_app, Hq1, Hq2, requests_issued_rounds. simpl. lia.
  - rewrite !failures_recorded_app, Hx1, Hx2, failures_recorded_rounds. reflexivity.
  - simpl. lia.
  - repeat split.
Qed.

End Passes.

Section BrokenPasses.

Variable server : nat -> Response.

(** X15.  An upload that leaves no usable file identifier behind ends the
    pass at the verify step: either the upload is refused while [file_id]
    was unset, or it is accepted with an object whose [id] is missing or
    falsy.  The pass stops with [InterruptTaskSet] after its one request
    and one recorded failure. *)
Theorem failed_upload_ends_pass w (rnd : Q) :
  (created (server (served w)) = false /\ truthy (file_id (self w)) = false) \/
  (exists d, created (server (served w)) = true /\
             json (server (served w)) = Some (VDict d) /\
             truthy (default VNone (d !! "id")) = false) ->
  let r := one_pass server rnd w in
  result r = Raised InterruptTaskSet /\
  requests_issued (trace r) = 1%nat /\
  failures_recorded (trace r) = 1%nat.
Proof.
  intros Hcase r. subst r. unfold one_pass.
  destruct Hcase as [[Hc Hid] | (d & Hc & Hj & Hid)].
  - destruct (upload_file_refused server w Hc) as (Hr & Hf & Hq & Hx).
    rewrite (bind_normal _ _ w tt _ _ (run_eq _ _ _ Hr Hf)).
    rewrite (bind_raised _ _ _ _ _ _
               (verify_upload_interrupts server (answered 1 w) rnd Hid)).
    unfold result, trace; cbn [fst snd]. rewrite app_nil_r. auto.
  - destruct (upload_file_stores server w d Hc Hj) as (Hr & Hf & Hq & Hx).
    rewrite Hid in Hx.
    rewrite (bind_normal _ _ w tt _ _ (run_eq _ _ _ Hr Hf)).
    rewrite (bind_raised _ _ _ _ _ _
               (verify_upload_interrupts server
                  (with_file_id (default VNone (d !! "id")) (answered 1 w)) rnd Hid)).
    unfold result, trace; cbn [fst snd]. rewrite app_nil_r. auto.
Qed.

(** X16.  A batch created without a usable identifier ends the pass
    silently: after an accepted upload and a verified file, a create-batch
    response with a success status and an object whose [id] is missing or
    falsy is marked a success, and the poll step then interrupts the task
    set.  The pass stops after three requests with no failure recorded. *)
Theorem batch_without_id_ends_pass_silently w (rnd : Q) d1 d2 :
  let k := served w in
  created (server k) = true ->
  json (server k) = Some (VDict d1) ->
  truthy (default VNone (d1 !! "id")) = true ->
  status_code (server (1 + k)) = 200 ->
  created (server (2 + k)) = true ->
  json (server (2 + k)) = Some (VDict d2) ->
  truthy (default VNone (d2 !! "id")) = false ->
  let r := one_pass server rnd w in
  result r = Raised InterruptTaskSet /\
  requests_issued (trace r) = 3%nat /\
  failures_recorded (trace r) = 0%nat /\
  batch_id (self (final r)) = default VNone (d2 !! "id").
Proof.
  intros k Hc1 Hj1 Hid1 Hc2 Hc3 Hj3 Hid3 r. subst r k. unfold one_pass.
  destruct (upload_file_stores server w d1 Hc1 Hj1) as (Hr1 & Hf1 & Hq1 & Hx1).
  rewrite Hid1 in Hx1.
  rewrite (bind_normal _ _ w tt _ _ (run_eq _ _ _ Hr1 Hf1)).
  set (t1 := trace (upload_file server w)) in *.
  set (w1 := with_file_id (default VNone (d1 !! "id")) (answered 1 w)).
  destruct (verify_upload_runs server w1 rnd Hid1) as (Hr2 & Hf2 & Hq2 & Hx2).
  change (served w1) with (1 + served w)%nat in Hx2. rewrite Hc2 in Hx2.
  rewrite (bind_normal _ _ w1 tt _ _ (run_eq _ _ _ Hr2 Hf2)).
  set (t2 := trace (verify_upload server rnd w1)) in *.
  rewrite (bind_normal _ _ (answered 1 w1) tt _ _
             (create_batch_stores server (answered 1 w1) d2 Hid1 Hc3 Hj3)).
  rewrite (bind_raised _ _ _ _ _ _
             (poll_batch_status_interrupts server
                (with_batch_id (default VNone (d2 !! "id")) (answered 1 (answered 1 w1)))
                Hid3)).
  unfold result, final, trace; cbn [fst snd].
  split; [reflexivity|]. split; [|split; [|reflexivity]].
  - rewrite !requests_issued_app, Hq1, Hq2. reflexivity.
  - rewrite !failures_recorded_app, Hx1, Hx2. reflexivity.
Qed.

(** A poll step that ends without a terminal status returns with the
    workflow as it was, some calls later. *)
Lemma poll_ends_empty_handed w i :
  truthy (batch_id (self w)) = true ->
  (i <= max_polls)%nat ->
  (forall j, (j < i)%nat -> is_running (server (j + served w)) = true) ->
  i = max_polls \/
  http_error (server (i + served w)) = true \/
  parse_failure (server (i + served w)) = true \/
  unknown_status (server (i + served w)) = true ->
  exists n,
    result (poll_batch_status server w) = Normal tt /\
    final (poll_batch_status server w) = answered n w.
Proof.
  intros Hid Hi Hrun Hcase.
  destruct (Nat.eq_dec i max_polls) as [-> | Hne].
  { rewrite poll_batch_status_exhausted by assumption. eexists. split; reflexivity. }
  assert (Hlt : (i < max_polls)%nat) by lia.
  destruct Hcase as [? | [Hcase | [Hcase | Hcase]]]; [contradiction| | |].
  - unfold http_error in Hcase. apply negb_true_iff, Z.eqb_neq in Hcase.
    rewrite (poll_batch_status_returns_at server i w _ _ Hid Hlt Hrun
               (poll_once_http_error server (answered i w) Hcase)).
    rewrite answered_answered. eexists. split; reflexivity.
  - unfold parse_failure in Hcase. apply andb_true_iff in Hcase as [Hc Hj].
    apply Z.eqb_eq in Hc. destruct (json _) eqn:E in Hj; [discriminate|].
    rewrite (poll_batch_status_returns_at server i w _ _ Hid Hlt Hrun
               (poll_once_parse_failure server (answered i w) Hc E)).
    rewrite answered_answered. eexists. split; reflexivity.
  - unfold unknown_status in Hcase.
    destruct (reported_status _) as [status|] eqn:E; [|discriminate].
    apply reported_status_Some in E as (Hc & d & Hj & ->).
    apply andb_true_iff in Hcase as [Hterm Hnotrun].
    apply negb_true_iff in Hterm, Hnotrun.
    rewrite (poll_batch_status_returns_at server i w _ _ Hid Hlt Hrun
               (poll_once_unknown server (answered i w) d Hc Hj Hterm Hnotrun)).
    rewrite answered_answered. eexists. split; reflexivity.
Qed.

(** X17.  Identifiers are not cleared between steps.  When
    [output_file_id] is already set and the poll step ends without a
    terminal status (an HTTP error, an unparseable body, an unknown status
    or the budget used up), the retrieve-output step that follows downloads
    the file of that earlier identifier. *)
Theorem stale_output_is_downloaded w i :
  truthy (batch_id (self w)) = true ->
  truthy (output_file_id (self w)) = true ->
  (i <= max_polls)%nat ->
  (forall j, (j < i)%nat -> is_running (server (j + served w)) = true) ->
  i = max_polls \/
  http_error (server (i + served w)) = true \/
  parse_failure (server (i + served w)) = true \/
  unknown_status (server (i + served w)) = true ->
  let r := (poll_batch_status server ;; retrieve_output server) w in
  result r = Normal tt /\
  exists verdict,
    trace r = trace (poll_batch_status server w)
                ++ [EvRequest GET (UrlFileContent (output_file_id (self w))) NoPayload
                      "/ai/v1/files/{output_file_id}/content [output]";
                    verdict].
Proof.
  intros Hid Hout Hi Hrun Hcase r. subst r.
  destruct (poll_ends_empty_handed w i Hid Hi Hrun Hcase) as (n & Hr & Hf).
  rewrite (bind_normal _ _ w tt _ _ (run_eq _ _ _ Hr Hf)).
  rewrite (retrieve_output_runs server (answered n w) Hout).
  unfold result, trace at 1; cbn [fst snd].
  split; [reflexivity|]. eexists. reflexivity.
Qed.

(** X18.  What is uploaded is what [on_start] loaded.  When the file
    named by [TEST_DATA_FILE] (by default
    [/test_data/batch_input_medium.jsonl]) can be read, the upload that
    follows [on_start] posts its contents; when opening it raises
    [FileNotFoundError], it posts the one built-in request line; any other
    exception of the read leaves [on_start] uncaught, and nothing is
    uploaded.  No other file is tried. *)
Theorem upload_posts_loaded_data (environ : gmap string string)
    (read : string -> read_result) w :
  let r := (workflow_on_start_loading environ read ;; upload_file server) w in
  match read (getenv environ "TEST_DATA_FILE" "/test_data/batch_input_medium.jsonl") with
  | Contents contents =>
      requests_of (trace r) =
        [EvRequest POST UrlFiles (UploadForm contents) "/ai/v1/files [upload]"]
  | NotFound =>
      requests_of (trace r) =
        [EvRequest POST UrlFiles (UploadForm minimal_test_data) "/ai/v1/files [upload]"]
  | ReadRaises e =>
      result r = Raised e /\ trace r = [] /\ served (final r) = served w
  end.
Proof.
  intros r. subst r.
  assert (Hloaded : forall data,
    load_test_data environ read
      (mkWorld (mkBatchWorkflow VNone VNone VNone VNone (test_data (self w)))
         (client w) (shared_api_key w) (process_exit_code w) (served w))
    = (Normal data,
       mkWorld (mkBatchWorkflow VNone VNone VNone VNone (test_data (self w)))
         (client w) (shared_api_key w) (process_exit_code w) (served w), []) ->
    requests_of
      (trace ((workflow_on_start_loading environ read ;; upload_file server) w)) =
    [EvRequest POST UrlFiles (UploadForm data) "/ai/v1/files [upload]"]).
  { intros data Hload.
    rewrite (bind_normal _ _ w tt
               (mkWorld (mkBatchWorkflow VNone VNone VNone VNone data)
                  (client w) (shared_api_key w) (process_exit_code w) (served w)) []).
    - pose proof (upload_file_requests server
        (mkWorld (mkBatchWorkflow VNone VNone VNone VNone data)
           (client w) (shared_api_key w) (process_exit_code w) (served w))) as H.
      destruct (upload_file server _) as [[r w'] t].
      unfold trace in *; cbn [snd app] in *. exact H.
    - unfold workflow_on_start_loading, bind at 1 2 3 4 5, set_file_id, set_batch_id,
        set_output_file_id, set_error_file_id, bind, get_self, set_self, get_world,
        put_world, ret. simpl. rewrite Hload.
      unfold set_test_data, bind, get_self, set_self, get_world, put_world, ret.
      reflexivity. }
  unfold load_test_data in Hloaded.
  destruct (read (getenv environ "TEST_DATA_FILE" "/test_data/batch_input_medium.jsonl"))
    as [contents | | e] eqn:Hread.
  - apply Hloaded. reflexivity.
  - apply Hloaded. reflexivity.
  - clear Hloaded.
    rewrite (bind_raised _ _ w e
               (mkWorld (mkBatchWorkflow VNone VNone VNone VNone (test_data (self w)))
                  (client w) (shared_api_key w) (process_exit_code w) (served w)) []).
    + repeat split.
    + unfold workflow_on_start_loading, bind at 1 2 3 4 5, set_file_id, set_batch_id,
        set_output_file_id, set_error_file_id, bind, get_self, set_self, get_world,
        put_world, ret. simpl. unfold load_test_data. rewrite Hread. reflexivity.
Qed.

End BrokenPasses.

(** ** The first user and the shared key *)

Section KeyCreation.

Variable server : nat -> Response.
Variable environ : gmap string string.
Variable hashable_slices : bool.

Ltac run_creation :=
  unfold start_user, on_start, _create_shared_api_key, _create_shared_api_key_response,
    bind, set_auth, update_header, get_client, set_client, get_shared_api_key,
    set_shared_api_key, dict_get, get_world, put_world, http, send, receive, print,
    emit, ret, raise, result, final, trace;
  simpl.

(** X19.  The user that finds no key and gets one: on a success status
    with an object whose [key] is a non-empty string (or list), the key
    becomes the shared key, and the user leaves [on_start] with it as
    bearer credential, basic auth switched off and the user agent set,
    having issued one request. *)
Theorem first_user_stores_key fresh w d :
  is_None (shared_api_key w) = true ->
  created (server (served w)) = true ->
  json (server (served w)) = Some (VDict d) ->
  truthy (default VNone (d !! "key")) = true ->
  sliceable (default VNone (d !! "key")) = true ->
  let r := start_user server environ hashable_slices fresh w in
  result r = Normal tt /\
  shared_api_key (final r) = default VNone (d !! "key") /\
  auth (client (final r)) = None /\
  headers (client (final r)) !! "Authorization"
    = Some (Bearer (default VNone (d !! "key"))) /\
  headers (client (final r)) !! "User-Agent" = Some (Plain "Locust-LoadTest/1.0") /\
  requests_issued (trace r) = 1%nat.
Proof.
  intros Hk Hc Hj Ht Hs. run_creation. rewrite Hk. simpl. rewrite Hc, Hj. simpl.
  rewrite Ht, Hs. simpl.
  split; [reflexivity|]. split; [reflexivity|]. split; [reflexivity|].
  split; [apply lookup_insert_eq|]. split; [|reflexivity].
  rewrite lookup_insert_ne by discriminate. apply lookup_insert_eq.
Qed.

(** X20.  The user that finds no key and gets none: when the creation is
    answered with a status other than 200 or 201, or with a body that is
    not JSON, [on_start] still returns normally; no key is stored, the
    user keeps the basic-auth pair taken from the environment (by default
    admin and password), and its [Authorization] header is left alone. *)
Theorem refused_creation_keeps_basic_auth fresh w :
  is_None (shared_api_key w) = true ->
  created (server (served w)) = false \/ json (server (served w)) = None ->
  let r := start_user server environ hashable_slices fresh w in
  result r = Normal tt /\
  shared_api_key (final r) = shared_api_key w /\
  auth (client (final r))
    = Some (getenv environ "BASIC_AUTH_USERNAME" "admin",
            getenv environ "BASIC_AUTH_PASSWORD" "password") /\
  headers (client (final r)) !! "Authorization" = headers fresh !! "Authorization" /\
  requests_issued (trace r) = 1%nat.
Proof.
  intros Hk Hcase. run_creation. rewrite Hk. simpl.
  assert (Hh : forall h : header,
    (<["User-Agent" := h]> (headers fresh)) !! "Authorization"
      = headers fresh !! "Authorization")
    by (intros h; apply lookup_insert_ne; discriminate).
  destruct (created (server (served w))) eqn:Hc.
  - destruct Hcase as [Hcase | Hj]; [discriminate|]. rewrite Hj. simpl.
    repeat split. apply Hh.
  - simpl. repeat split. apply Hh.
Qed.

(** X21.  The key is stored before it is looked at.  When the creation
    answers a success status with an object whose [key] is not [None] but
    is empty or cannot be sliced (an empty string, a number), the creating
    user keeps basic auth, yet the value is now the shared key: the users
    that start afterwards issue no creation request and all send it as
    their bearer credential. *)
Theorem unusable_key_is_shared fresh w d n :
  is_None (shared_api_key w) = true ->
  created (server (served w)) = true ->
  json (server (served w)) = Some (VDict d) ->
  is_None (default VNone (d !! "key")) = false ->
  truthy (default VNone (d !! "key")) && sliceable (default VNone (d !! "key")) = false ->
  let r := start_user server environ hashable_slices fresh w in
  shared_api_key (final r) = default VNone (d !! "key") /\
  auth (client (final r))
    = Some (getenv environ "BASIC_AUTH_USERNAME" "admin",
            getenv environ "BASIC_AUTH_PASSWORD" "password") /\
  requests_issued (trace r) = 1%nat /\
  let later := start_users server environ hashable_slices n fresh (final r) in
  requests_issued (trace later) = 0%nat /\
  length (result later) = n /\
  Forall (uses_bearer (default VNone (d !! "key"))) (result later).
Proof.
  intros Hk Hc Hj Hnone Hbad r.
  assert (H : shared_api_key (final r) = default VNone (d !! "key") /\
              auth (client (final r))
                = Some (getenv environ "BASIC_AUTH_USERNAME" "admin",
                        getenv environ "BASIC_AUTH_PASSWORD" "password") /\
              requests_issued (trace r) = 1%nat).
  { subst r. run_creation. rewrite Hk. simpl. rewrite Hc, Hj. simpl.
    destruct (truthy (default VNone (d !! "key"))); simpl in *; [|repeat split].
    rewrite Hbad.
    destruct (default VNone (d !! "key")); try (repeat split; fail).
    destruct hashable_slices; repeat split. }
  destruct H as (Hkey & Hauth & Hreq).
  split; [exact Hkey|]. split; [exact Hauth|]. split; [exact Hreq|].
  intros later. subst later.
  assert (Hset : is_None (shared_api_key (final r)) = false) by (rewrite Hkey; exact Hnone).
  pose proof (start_users_with_key server environ hashable_slices n fresh (final r) Hset) as H.
  destruct (start_users server environ hashable_slices n fresh (final r)) as [[users w'] t].
  destruct H as (H0 & _ & Hlen & Hall). rewrite Hkey in Hall.
  split; [exact H0|]. split; [exact Hlen | exact Hall].
Qed.

End KeyCreation.

(** ** Users that all start before the first answer *)

Section Herd.

Variable server : nat -> Response.
Variable environ : gmap string string.
Variable hashable_slices : bool.

Lemma begin_without_key p u c :
  members p !! u = Some (Idle, c) ->
  class_key p = VNone ->
  exists c' t,
    act server environ hashable_slices (Begin u) p =
      (mkPool (<[u := (Posting, c')]> (members p)) VNone (answers p), t) /\
    requests_issued t = 1%nat.
Proof.
  intros Hu Hk. unfold act. rewrite Hu.
  unfold on_start_begin, as_member, bind, set_auth, update_header, get_client,
    set_client, get_shared_api_key, get_world, put_world, send, print, emit, ret.
  simpl. rewrite Hk. simpl. eexists _, _. split; reflexivity.
Qed.

Lemma begin_all rest : forall (started : list (phase * HttpSession)) k,
  Forall (fun m => m.1 = Posting) started ->
  let p := mkPool (started ++ map (pair Idle) rest) VNone k in
  let run :=
    interleave server environ hashable_slices
      (map Begin (seq (length started) (length rest))) p in
  requests_issued run.2 = length rest /\
  class_key run.1 = VNone /\
  length (members run.1) = (length started + length rest)%nat /\
  Forall (fun m => m.1 = Posting) (members run.1).
Proof.
  induction rest as [|c rest IH]; intros started k Hstarted p run; subst p run.
  - simpl. rewrite app_nil_r. repeat split; [lia | exact Hstarted].
  - cbn [length seq map interleave].
    destruct (begin_without_key
                (mkPool (started ++ map (pair Idle) (c :: rest)) VNone k)
                (length started) c) as (c' & t & Hact & Hreq).
    { cbn [members map]. apply list_lookup_middle. reflexivity. }
    { reflexivity. }
    cbn [members answers map] in Hact. rewrite Hact.
    replace (<[length started := (Posting, c')]>
               (started ++ (Idle, c) :: map (pair Idle) rest))
      with ((started ++ [(Posting, c')]) ++ map (pair Idle) rest).
    2:{ rewrite <- app_assoc. cbn [app].
        rewrite <- (Nat.add_0_r (length started)).
        rewrite insert_app_r. reflexivity. }
    specialize (IH (started ++ [(Posting, c')]) k).
    rewrite length_app in IH. cbn [length] in IH.
    replace (length started + 1)%nat with (S (length started)) in IH by lia.
    destruct IH as (H1 & H2 & H3 & H4).
    { apply Forall_app. split; [exact Hstarted|]. constructor; [reflexivity|constructor]. }
    destruct (interleave _ _ _ _ _) as [p2 t2]. cbn [fst snd] in *.
    split; [rewrite requests_issued_app, Hreq, H1; reflexivity|].
    split; [exact H2|]. split; [lia | exact H4].
Qed.

(** X22.  Nothing keeps overlapping users from each creating a key.  When
    all users of a pool are scheduled before the first answer arrives,
    every one of them finds the shared key unset and posts a creation
    request: as many requests as users, all of them left blocked in their
    POST, and still no key. *)
Theorem simultaneous_users_all_create (sessions : list HttpSession) k :
  let run :=
    interleave server environ hashable_slices
      (map Begin (seq 0 (length sessions)))
      (mkPool (map (pair Idle) sessions) VNone k) in
  requests_issued run.2 = length sessions /\
  class_key run.1 = VNone /\
  length (members run.1) = length sessions /\
  Forall (fun m => m.1 = Posting) (members run.1).
Proof.
  apply (begin_all sessions [] k). constructor.
Qed.

End Herd.

(** ** The run-end hook and the runner script *)

Section HookExtras.

Variable environ : gmap string string.
Variable float : string -> option pyfloat.
Variable exported : bool.

(** X23.  When neither threshold is exceeded (the comparisons are strict,
    and false on a NaN) the hook prints the summary, the outcome of the
    export and the all-passed line, and nothing else: no failure banner
    and no violation. *)
Theorem on_test_stop_all_passed total w p95_threshold_ms error_rate_threshold :
  float (getenv environ "P95_THRESHOLD_MS" "1000") = Some p95_threshold_ms ->
  float (getenv environ "ERROR_RATE_THRESHOLD" "0.01") = Some error_rate_threshold ->
  float_gt (get_response_time_percentile total (95 # 100)) p95_threshold_ms = false ->
  float_gt (fail_ratio total) error_rate_threshold = false ->
  on_test_stop environ float exported total w =
    (Normal tt, w,
     [EvPrint LoadTestComplete; EvPrint (Summary total);
      EvPrint (if exported then MetricsExported else ExportFailed);
      EvPrint AllAssertionsPassed]).
Proof.
  intros Hp He Hgt1 Hgt2.
  unfold on_test_stop, float_getenv, bind, print, emit, ret.
  rewrite Hp, He, Hgt1, Hgt2. destruct exported; reflexivity.
Qed.

(** X24.  A threshold that [float] rejects makes the hook raise
    [ValueError], after the summary and the export (whose outcome is
    still printed) and before any threshold is checked. *)
Theorem on_test_stop_bad_threshold total w :
  float (getenv environ "P95_THRESHOLD_MS" "1000") = None \/
  float (getenv environ "ERROR_RATE_THRESHOLD" "0.01") = None ->
  on_test_stop environ float exported total w =
    (Raised ValueError, w,
     [EvPrint LoadTestComplete; EvPrint (Summary total);
      EvPrint (if exported then MetricsExported else ExportFailed)]).
Proof.
  intros Hcase.
  unfold on_test_stop, float_getenv, bind, print, emit, ret, raise.
  destruct (float (getenv environ "P95_THRESHOLD_MS" "1000")) as [x|] eqn:Hp.
  - destruct Hcase as [Hcase | Hcase]; [discriminate|]. rewrite Hcase.
    destruct exported; reflexivity.
  - destruct exported; reflexivity.
Qed.

End HookExtras.

Lemma str_in_inserted (LOCUSTFILE : string) (argv : list string) :
  str_in "-f" (list_insert_at 2 LOCUSTFILE (list_insert_at 1 "-f" argv)) = true.
Proof.
  destruct argv as [|a [|b rest]]; unfold list_insert_at, str_in; simpl;
    rewrite ?orb_true_r; reflexivity.
Qed.

(** X25.  Without [-f] or [--locustfile] among the arguments, [main] puts
    [-f] and the path of the bundled locustfile right after the program
    name and leaves the other arguments in their order; it exits with the
    status locust returns for that command line. *)
Theorem main_adds_locustfile (locust_main : list string -> Z) (LOCUSTFILE prog : string)
    (args : list string) :
  str_in "--locustfile" (prog :: args) = false ->
  str_in "-f" (prog :: args) = false ->
  main locust_main LOCUSTFILE (prog :: args) =
    (prog :: "-f" :: LOCUSTFILE :: args,
     locust_main (prog :: "-f" :: LOCUSTFILE :: args)).
Proof.
  intros H1 H2. unfold main, main_argv. rewrite H1, H2. reflexivity.
Qed.

(** X26.  The fix of [main] goes by whole arguments and is done once: a
    command line that has [-f] or [--locustfile] as an argument of its own
    is passed on unchanged, the command line locust receives always has
    one of the two as an argument of its own, and applying the fix again
    changes nothing.  (The joined forms [--locustfile=path] and [-fpath]
    are not such arguments: for them the fix of X25 applies.) *)
Theorem main_argv_settles (LOCUSTFILE : string) (argv : list string) :
  (str_in "--locustfile" argv || str_in "-f" argv = true ->
   main_argv LOCUSTFILE argv = argv) /\
  str_in "--locustfile" (main_argv LOCUSTFILE argv)
    || str_in "-f" (main_argv LOCUSTFILE argv) = true /\
  main_argv LOCUSTFILE (main_argv LOCUSTFILE argv) = main_argv LOCUSTFILE argv.
Proof.
  assert (Hhas : str_in "--locustfile" (main_argv LOCUSTFILE argv)
                 || str_in "-f" (main_argv LOCUSTFILE argv) = true).
  { unfold main_argv.
    destruct (str_in "--locustfile" argv) eqn:H1; simpl; [rewrite H1; reflexivity|].
    destruct (str_in "-f" argv) eqn:H2; simpl; [rewrite H1, H2; reflexivity|].
    rewrite str_in_inserted. apply orb_true_r. }
  split; [|split; [exact Hhas|]].
  - intros H. unfold main_argv.
    destruct (str_in "--locustfile" argv), (str_in "-f" argv);
      try reflexivity; discriminate.
  - unfold main_argv at 1.
    destruct (str_in "--locustfile" (main_argv LOCUSTFILE argv)),
             (str_in "-f" (main_argv LOCUSTFILE argv));
      try reflexivity; discriminate.
Qed.

(** ** The further properties at concrete inputs *)

Lemma poll_run_shape_witness :
  exists k stop,
    (k <= 60)%nat /\
    trace (poll_batch_status completes_at_third polling_world)
      = rounds (VStr "batch-1") k 2 ++ stop /\
    ((k = 60%nat /\ stop = [EvPrint (DidNotComplete (VStr "batch-1") 60)]) \/
     ((k < 60)%nat /\
      (stop = [EvRequest GET (UrlBatch (VStr "batch-1")) NoPayload poll_name;
               EvSuccess poll_name] \/
       (exists msg, stop = [EvRequest GET (UrlBatch (VStr "batch-1")) NoPayload poll_name;
                            EvFailure poll_name msg]) \/
       stop = [EvRequest GET (UrlBatch (VStr "batch-1")) NoPayload poll_name]))).
Proof.
  apply (poll_run_shape completes_at_third polling_world). reflexivity.
Defined.

Lemma poll_sleep_schedule_witness :
  interval 3 = interval 3 /\
  (interval 3 == Qmin (2 * (3 # 2) ^ 3) 30)%Q /\
  (2 <= interval 3 <= 30)%Q /\
  (3 < 60)%nat.
Proof.
  apply (poll_sleep_schedule always_in_progress polling_world 3 (interval 3)).
  vm_compute. reflexivity.
Defined.

Lemma poll_error_response_fails_witness :
  let r := poll_batch_status always_unavailable polling_world in
  result r = Normal tt /\
  trace r = [EvRequest GET (UrlBatch (VStr "batch-1")) NoPayload poll_name;
             EvFailure poll_name (PollFailed 503)] /\
  failures_recorded (trace r) = 1%nat /\
  requests_issued (trace r) = 1%nat.
Proof.
  apply (poll_error_response_fails always_unavailable polling_world 0).
  - reflexivity.
  - unfold max_polls; lia.
  - intros j Hj; lia.
  - left; reflexivity.
Defined.

Lemma poll_not_an_object_raises_witness :
  let r := poll_batch_status always_a_list polling_world in
  result r = Raised AttributeError /\
  trace r = [EvRequest GET (UrlBatch (VStr "batch-1")) NoPayload poll_name] /\
  failures_recorded (trace r) = 0%nat /\
  output_file_id (self (final r)) = VNone /\
  error_file_id (self (final r)) = VNone.
Proof.
  apply (poll_not_an_object_raises always_a_list polling_world 0).
  - reflexivity.
  - unfold max_polls; lia.
  - intros j Hj; lia.
  - reflexivity.
Defined.

Lemma unparseable_body_fails_witness :
  (let r := upload_file always_garbled uploaded_world in
   result r = Normal tt /\ marked_failed (trace r) /\
   file_id (self (final r)) = VStr "file-abc") /\
  (let r := create_batch always_garbled uploaded_world in
   result r = Normal tt /\ marked_failed (trace r) /\
   batch_id (self (final r)) = VNone).
Proof.
  destruct (unparseable_body_fails always_garbled uploaded_world eq_refl eq_refl)
    as [Hup Hcreate].
  split; [exact Hup | exact (Hcreate eq_refl)].
Defined.

Lemma non_object_body_raises_witness :
  (let r := upload_file always_a_list uploaded_world in
   result r = Raised AttributeError /\
   successes_recorded (trace r) = 0%nat /\ failures_recorded (trace r) = 0%nat /\
   requests_issued (trace r) = 1%nat /\
   file_id (self (final r)) = VStr "file-abc") /\
  (let r := create_batch always_a_list uploaded_world in
   result r = Raised AttributeError /\
   successes_recorded (trace r) = 0%nat /\ failures_recorded (trace r) = 0%nat /\
   requests_issued (trace r) = 1%nat /\
   batch_id (self (final r)) = VNone).
Proof.
  destruct (non_object_body_raises always_a_list uploaded_world (VList [])
              eq_refl eq_refl) as [Hup Hcreate].
  - intros d; discriminate.
  - split; [exact Hup | exact (Hcreate eq_refl)].
Defined.

Lemma clean_pass_witness :
  let r := one_pass serves_a_batch (1 # 4) world0 in
  result r = Normal tt /\
  requests_issued (trace r) = 6%nat /\
  failures_recorded (trace r) = 0%nat /\
  served (final r) = 6%nat /\
  file_id (self (final r)) = VStr "file-abc" /\
  batch_id (self (final r)) = VStr "batch-1" /\
  output_file_id (self (final r)) = VStr "file-out-1" /\
  error_file_id (self (final r)) = VNone.
Proof.
  destruct (clean_pass serves_a_batch world0 (1 # 4) 1
              (list_to_map [("id", VStr "file-abc")])
              (list_to_map [("id", VStr "batch-1")])
              completed_entries)
    as (Hr & Hq & Hx & Hs & Hf & Hb & Ho & He); try reflexivity.
  - unfold max_polls; lia.
  - intros [|j] Hj; [reflexivity | lia].
  - split; [exact Hr|]. split; [exact Hq|]. split; [exact Hx|]. split; [exact Hs|].
    split; [rewrite Hf; reflexivity|]. split; [rewrite Hb; reflexivity|].
    split; [rewrite Ho; reflexivity | rewrite He; reflexivity].
Defined.

Lemma failed_upload_ends_pass_witness :
  let r := one_pass always_fails (1 # 4) world0 in
  result r = Raised InterruptTaskSet /\
  requests_issued (trace r) = 1%nat /\
  failures_recorded (trace r) = 1%nat.
Proof.
  apply (failed_upload_ends_pass always_fails world0 (1 # 4)).
  left. split; reflexivity.
Defined.

Lemma batch_without_id_ends_pass_silently_witness :
  let r := one_pass loses_batch_id (1 # 4) world0 in
  result r = Raised InterruptTaskSet /\
  requests_issued (trace r) = 3%nat /\
  failures_recorded (trace r) = 0%nat /\
  batch_id (self (final r)) = VNone.
Proof.
  destruct (batch_without_id_ends_pass_silently loses_batch_id world0 (1 # 4)
              (list_to_map [("id", VStr "file-abc")]) ∅)
    as (Hr & Hq & Hx & Hb); try reflexivity.
  split; [exact Hr|]. split; [exact Hq|]. split; [exact Hx|].
  rewrite Hb. reflexivity.
Defined.

Lemma stale_output_is_downloaded_witness :
  let r := (poll_batch_status always_unavailable ;; retrieve_output always_unavailable)
             second_pass_world in
  result r = Normal tt /\
  exists verdict,
    trace r = trace (poll_batch_status always_unavailable second_pass_world)
                ++ [EvRequest GET (UrlFileContent (VStr "file-out-0")) NoPayload
                      "/ai/v1/files/{output_file_id}/content [output]";
                    verdict].
Proof.
  apply (stale_output_is_downloaded always_unavailable second_pass_world 0).
  - reflexivity.
  - reflexivity.
  - unfold max_polls; lia.
  - intros j Hj; lia.
  - right; left; reflexivity.
Defined.

Lemma first_user_stores_key_witness :
  let r := start_user issues_keys ∅ false session0 world0 in
  result r = Normal tt /\
  shared_api_key (final r) = VStr "sk-first" /\
  auth (client (final r)) = None /\
  headers (client (final r)) !! "Authorization" = Some (Bearer (VStr "sk-first")) /\
  headers (client (final r)) !! "User-Agent" = Some (Plain "Locust-LoadTest/1.0") /\
  requests_issued (trace r) = 1%nat.
Proof.
  destruct (first_user_stores_key issues_keys ∅ false session0 world0
              (list_to_map [("key", VStr "sk-first")]))
    as (Hr & Hk & Ha & Hh & Hu & Hq); try reflexivity.
  split; [exact Hr|]. split; [rewrite Hk; reflexivity|]. split; [exact Ha|].
  split; [rewrite Hh; reflexivity|]. split; [exact Hu | exact Hq].
Defined.

Lemma refused_creation_keeps_basic_auth_witness :
  let r := start_user always_fails ∅ false session0 world0 in
  result r = Normal tt /\
  shared_api_key (final r) = VNone /\
  auth (client (final r)) = Some ("admin", "password") /\
  headers (client (final r)) !! "Authorization" = None /\
  requests_issued (trace r) = 1%nat.
Proof.
  destruct (refused_creation_keeps_basic_auth always_fails ∅ false session0 world0)
    as (Hr & Hk & Ha & Hh & Hq).
  - reflexivity.
  - left; reflexivity.
  - split; [exact Hr|]. split; [rewrite Hk; reflexivity|].
    split; [rewrite Ha; reflexivity|]. split; [rewrite Hh; reflexivity | exact Hq].
Defined.

Lemma unusable_key_is_shared_witness :
  let r := start_user issues_empty_key ∅ false session0 world0 in
  shared_api_key (final r) = VStr "" /\
  auth (client (final r)) = Some ("admin", "password") /\
  requests_issued (trace r) = 1%nat /\
  let later := start_users issues_empty_key ∅ false 2 session0 (final r) in
  requests_issued (trace later) = 0%nat /\
  length (result later) = 2%nat /\
  Forall (uses_bearer (VStr "")) (result later).
Proof.
  destruct (unusable_key_is_shared issues_empty_key ∅ false session0 world0
              (list_to_map [("key", VStr "")]) 2)
    as (Hk & Ha & Hq & Hlater); try reflexivity.
  split; [rewrite Hk; reflexivity|]. split; [rewrite Ha; reflexivity|].
  split; [exact Hq|]. exact Hlater.
Defined.

Lemma on_test_stop_all_passed_witness :
  on_test_stop ∅ float_of_default false calm_total world0 =
    (Normal tt, world0,
     [EvPrint LoadTestComplete; EvPrint (Summary calm_total);
      EvPrint ExportFailed; EvPrint AllAssertionsPassed]).
Proof.
  apply (on_test_stop_all_passed ∅ float_of_default false calm_total world0
           (FNum 1000) (FNum (1 # 100))); reflexivity.
Defined.

Lemma on_test_stop_bad_threshold_witness :
  on_test_stop ∅ float_rejects true slow_total world0 =
    (Raised ValueError, world0,
     [EvPrint LoadTestComplete; EvPrint (Summary slow_total); EvPrint MetricsExported]).
Proof.
  apply (on_test_stop_bad_threshold ∅ float_rejects true slow_total world0).
  left; reflexivity.
Defined.

Lemma main_adds_locustfile_witness :
  main (fun argv => Z.of_nat (length argv)) "/mnt/locust/locustfile.py"
       ["load_test.py"; "--headless"; "-u"; "10"] =
    (["load_test.py"; "-f"; "/mnt/locust/locustfile.py"; "--headless"; "-u"; "10"], 6).
Proof.
  apply (main_adds_locustfile (fun argv => Z.of_nat (length argv))
           "/mnt/locust/locustfile.py" "load_test.py" ["--headless"; "-u"; "10"]);
    reflexivity.
Defined.

Lemma interval_saturates_witness :
  (interval 3 <= interval 4)%Q /\ (interval 6 < 30)%Q /\ (interval 7 == 30)%Q.
Proof.
  destruct interval_saturates as (Hmono & Hbelow & Hcap).
  split; [exact (Hmono 3%nat)|]. split; [apply Hbelow; lia | apply Hcap; lia].
Defined.

Lemma poll_total_sleep_bound_witness :
  (total_sleep (trace (poll_batch_status completes_at_third polling_world))
     <= 52939 # 32)%Q /\
  (total_sleep (trace (poll_batch_status always_in_progress polling_world))
     == 52939 # 32)%Q.
Proof.
  split.
  - apply (poll_total_sleep_bound completes_at_third polling_world).
  - apply (poll_total_sleep_bound always_in_progress polling_world).
    + reflexivity.
    + intros j Hj; reflexivity.
Defined.

Lemma upload_file_verdict_witness :
  truthy (file_id (self (final (upload_file accepts_upload world0)))) = true /\
  (successes_recorded (trace (upload_file always_fails world0))
   + failures_recorded (trace (upload_file always_fails world0)) = 1)%nat /\
  (successes_recorded (trace (upload_file always_a_list world0))
   + failures_recorded (trace (upload_file always_a_list world0)) = 0)%nat.
Proof.
  split; [|split].
  - apply (upload_file_verdict accepts_upload world0). reflexivity.
  - apply (upload_file_verdict always_fails world0). reflexivity.
  - destruct (upload_file_verdict always_a_list world0) as (_ & _ & Hraise).
    apply (Hraise AttributeError). reflexivity.
Defined.

Lemma get_steps_judge_by_status_witness :
  marked_failed (trace (verify_upload always_unavailable (3 # 4) second_pass_world)) /\
  marked_failed (trace (retrieve_output always_unavailable second_pass_world)) /\
  marked_success (trace (retrieve_output always_garbled second_pass_world)).
Proof.
  split; [|split].
  - apply (get_steps_judge_by_status always_unavailable second_pass_world (3 # 4)).
    reflexivity.
  - apply (get_steps_judge_by_status always_unavailable second_pass_world (3 # 4)).
    reflexivity.
  - apply (get_steps_judge_by_status always_garbled second_pass_world (3 # 4)).
    reflexivity.
Defined.

Lemma main_argv_settles_witness :
  main_argv "/mnt/locust/locustfile.py" ["load_test.py"; "-f"; "mine.py"]
    = ["load_test.py"; "-f"; "mine.py"].
Proof.
  destruct (main_argv_settles "/mnt/locust/locustfile.py"
              ["load_test.py"; "-f"; "mine.py"]) as (Hkeep & _ & _).
  apply Hkeep. reflexivity.
Defined.

Lemma upload_posts_loaded_data_witness :
  requests_of
    (trace ((workflow_on_start_loading ∅ no_files ;; upload_file always_fails) world0))
    = [EvRequest POST UrlFiles (UploadForm minimal_test_data) "/ai/v1/files [upload]"] /\
  result ((workflow_on_start_loading ∅ only_directories ;; upload_file always_fails)
            second_pass_world)
    = Raised OSError.
Proof.
  split.
  - apply (upload_posts_loaded_data always_fails ∅ no_files world0).
  - apply (upload_posts_loaded_data always_fails ∅ only_directories second_pass_world).
Defined.

(** A locustfile given in a joined form is not recognised: the bundled one
    is put in front of it. *)
Lemma joined_option_is_not_recognised :
  main_argv "/mnt/locust/locustfile.py" ["load_test.py"; "--locustfile=mine.py"]
    = ["load_test.py"; "-f"; "/mnt/locust/locustfile.py"; "--locustfile=mine.py"] /\
  main_argv "/mnt/locust/locustfile.py" ["load_test.py"; "-fmine.py"]
    = ["load_test.py"; "-f"; "/mnt/locust/locustfile.py"; "-fmine.py"].
Proof. split; reflexivity. Qed.
